(** * nettoolkit_db: Excel database read / write operations

    A shallow embedding of [nettoolkit_db/database.py] and the properties
    of its collision-avoidance writer, reader, append orchestration and
    sheet merge.

    The program is sequential Python over three kinds of state: the
    filesystem, the standard output and the objects it builds.  The
    embedding threads a [world] through a small exception-and-state monad
    [M]; Python's [try/except] is [try_except], a bare [except:] catches
    every exception.

    The pandas boundary is modelled as follows.
    - A file on disk is either a workbook (its sheets as pandas reads
      them, in on-disk order) or bytes that do not parse as one.
      [pd.ExcelFile(path)] succeeds exactly on the former and raises
      otherwise, also when no file is there.
    - What pandas does when it writes is not the program's business and
      differs between its engines, so it is a parameter of every
      statement about writing, a [pandas_writer]: whether
      [pd.ExcelWriter(path)] finds an engine for the path; whether a call
      of [df.to_excel] returns or raises, and the workbook it leaves in
      either case; and, when the [with] block is left, whether the
      workbook can be saved and what sheets the file then holds.  When it
      cannot be saved, what is left at the path is not a workbook.
    - A DataFrame is its column labels and its rows of cells; a missing
      value (NaN) is the cell [NaN]. *)

From Stdlib Require Import Ascii.
From stdpp Require Import gmap strings list fin_maps pretty.

(* ================================================================== *)
(** * Python strings *)
(* ================================================================== *)

Module PyStr.

(** [s.split(".")]: the segments between dots; never the empty list. *)
Fixpoint split_dot (s : string) : list string :=
  match s with
  | EmptyString => [EmptyString]
  | String c s' =>
      if Ascii.eqb c "."%char then EmptyString :: split_dot s'
      else match split_dot s' with
           | seg :: rest => String c seg :: rest
           | [] => [String c EmptyString]
           end
  end.

(** [sep.join(l)] *)
Fixpoint join (sep : string) (l : list string) : string :=
  match l with
  | [] => EmptyString
  | [x] => x
  | x :: rest => x +:+ sep +:+ join sep rest
  end.

(** [l[:-1]] *)
Definition but_last (l : list string) : list string := removelast l.

(** [l[-1]]; the default is never used on the result of a split. *)
Definition last_seg (l : list string) : string := List.last l EmptyString.

(** [s[:k]] *)
Fixpoint prefix (k : nat) (s : string) : string :=
  match k, s with
  | S k', String c s' => String c (prefix k' s')
  | _, _ => EmptyString
  end.

(** ["." in s] *)
Fixpoint has_dot (s : string) : bool :=
  match s with
  | EmptyString => false
  | String c s' => Ascii.eqb c "."%char || has_dot s'
  end.

(** [str(n)] for a non-negative [int] *)
Definition str (n : nat) : string := pretty n.

End PyStr.

Global Arguments PyStr.prefix : simpl never.

(* ================================================================== *)
(** * XL_WRITE.copy_of_file *)
(* ================================================================== *)

(** [next_num = f'' if n == 1 else f' ({str(n)})'] *)
Definition next_num (n : nat) : string :=
  if decide (n = 1) then EmptyString else " (" +:+ PyStr.str n +:+ ")".

Definition copy_of_file (file : string) (n : nat) : string :=
  let spl_file := PyStr.split_dot file in
  let name := PyStr.join "." (PyStr.but_last spl_file) in
  let extn := PyStr.last_seg spl_file in
  name +:+ " - Copy" +:+ next_num n +:+ "." +:+ extn.

(* ================================================================== *)
(** * Data model *)
(* ================================================================== *)

(** A cell of a DataFrame; [NaN] is pandas' missing-value marker. *)
Inductive cell : Type :=
| NaN
| Str (s : string)
| Int (z : Z).

Global Instance cell_eq_dec : EqDecision cell.
Proof. solve_decision. Defined.

(** A DataFrame: column labels and rows, each row aligned with the
    columns.  The default integer row index is not part of the data. *)
Record DataFrame : Type := mkDF {
  columns : list string;
  rows : list (list cell)
}.

Global Instance DataFrame_eq_dec : EqDecision DataFrame.
Proof. solve_decision. Defined.

(** An insertion-ordered mapping from sheet name to table: Python's
    [dict] and [OrderedDict]. *)
Definition odict : Type := list (string * DataFrame).

(** What a path holds: a workbook with its sheets in on-disk order, or
    content that does not parse as a workbook. *)
Inductive file : Type :=
| Workbook (sheets : odict)
| Malformed.

(** The exceptions the program meets. *)
Inductive exn : Type :=
| OpenError          (* pd.ExcelFile: no such file, or not a workbook *)
| KeyError
| UnboundLocalError
| SheetWriteError    (* df.to_excel refused the sheet *)
| FileNotFoundError
| NoEngineError      (* pd.ExcelWriter: no engine for the path *)
| SaveError.         (* leaving the with block: the workbook cannot be saved *)

(** An outcome of running a piece of the program.  [OutOfFuel] is not a
    Python exception: it marks a loop cut short by the model and is not
    caught by [except]. *)
Inductive outcome (A : Type) : Type :=
| Ret (a : A)
| Exc (e : exn)
| OutOfFuel.
Arguments Ret {A} a.
Arguments Exc {A} e.
Arguments OutOfFuel {A}.

(** A call into pandas, as recorded in program order. *)
Inductive call : Type :=
| Call_ExcelFile (path : string)
| Call_to_excel (sheet_name : string).

(** The state outside the program's objects: the filesystem, what was
    printed, and the calls made into pandas so far. *)
Record world : Type := mkWorld {
  fs : gmap string file;
  stdout : list string;
  calls : list call
}.

Definition M (A : Type) : Type := world -> outcome A * world.

Definition ret {A} (a : A) : M A := fun w => (Ret a, w).

Definition raise {A} (e : exn) : M A := fun w => (Exc e, w).

Definition bind {A B} (m : M A) (k : A -> M B) : M B :=
  fun w =>
    match m w with
    | (Ret a, w') => k a w'
    | (Exc e, w') => (Exc e, w')
    | (OutOfFuel, w') => (OutOfFuel, w')
    end.

(** [try: m  except: h] with a bare [except]. *)
Definition try_except {A} (m : M A) (h : M A) : M A :=
  fun w =>
    match m w with
    | (Exc _, w') => h w'
    | r => r
    end.

Declare Scope py_scope.
Delimit Scope py_scope with py.
Notation "'let*' x ':=' m 'in' k" := (bind m (fun x => k))
  (at level 10, x name, m at level 100, k at level 200) : py_scope.
Notation "m ;; k" := (bind m (fun _ => k))
  (at level 100, k at level 200, right associativity) : py_scope.
Local Open Scope py_scope.

(** [print(s)] *)
Definition print (s : string) : M unit :=
  fun w => (Ret tt, mkWorld (fs w) (stdout w ++ [s]) (calls w)).

(** [for x in l: body], the loop variable's effect gathered in an
    accumulator. *)
Fixpoint for_each {A S} (l : list A) (body : S -> A -> M S) (s : S) : M S :=
  match l with
  | [] => ret s
  | x :: l' => let* s' := body s x in for_each l' body s'
  end.

(* ------------------------------------------------------------------ *)
(** ** Ordered dictionaries *)
(* ------------------------------------------------------------------ *)

(** [d[k] = v]: a present key keeps its place, a new key goes last. *)
Fixpoint od_set (k : string) (v : DataFrame) (d : odict) : odict :=
  match d with
  | [] => [(k, v)]
  | (k', v') :: d' =>
      if decide (k = k') then (k, v) :: d' else (k', v') :: od_set k v d'
  end.

(** [d[k]] as an option; [None] is where Python raises [KeyError]. *)
Fixpoint od_get (k : string) (d : odict) : option DataFrame :=
  match d with
  | [] => None
  | (k', v') :: d' => if decide (k = k') then Some v' else od_get k d'
  end.

(** [d.update(e)] *)
Definition od_update (d e : odict) : odict :=
  foldl (fun acc kv => od_set kv.1 kv.2 acc) d e.

Definition od_keys (d : odict) : list string := d.*1.

(* ------------------------------------------------------------------ *)
(** ** The pandas boundary *)
(* ------------------------------------------------------------------ *)

(** [pd.ExcelFile(path)] *)
Definition ExcelFile (path : string) : M odict :=
  fun w =>
    let w' := mkWorld (fs w) (stdout w) (calls w ++ [Call_ExcelFile path]) in
    match fs w !! path with
    | Some (Workbook sheets) => (Ret sheets, w')
    | _ => (Exc OpenError, w')
    end.

(** [xl.parse(sheet_name)] *)
Definition parse (xl : odict) (sheet_name : string) : M DataFrame :=
  match od_get sheet_name xl with
  | Some df => ret df
  | None => raise KeyError
  end.

(** The writing side of pandas, as far as the program uses it. *)
Record pandas_writer : Type := mkWriter {
  (** the workbook of an open [pd.ExcelWriter] *)
  book : Type;
  (** does [pd.ExcelWriter(path)] find an engine for the path? *)
  has_engine : string -> bool;
  (** the workbook of a writer just opened *)
  new_book : book;
  (** [df.to_excel(writer_file, sheet_name=.., index=.., index_label=..)]:
      [true] when the call returns and [false] when it raises, with the
      workbook as the call leaves it in either case *)
  to_excel : book -> string -> DataFrame -> bool -> string -> bool * book;
  (** closing the writer: the sheets the file then holds, as
      [pd.ExcelFile] reads them, or [None] when saving raises *)
  save : book -> option odict
}.

(** [os.remove(path)] *)
Definition os_remove (path : string) : M unit :=
  fun w =>
    match fs w !! path with
    | Some _ => (Ret tt, mkWorld (delete path (fs w)) (stdout w) (calls w))
    | None => (Exc FileNotFoundError, w)
    end.

(* ================================================================== *)
(** * DataFrame operations used by the merge *)
(* ================================================================== *)

(** [pd.DataFrame()] *)
Definition empty_DataFrame : DataFrame := mkDF [] [].

(** [df.fillna(value)] with a string value *)
Definition fillna (value : string) (df : DataFrame) : DataFrame :=
  mkDF (columns df)
       (map (map (fun c => match c with NaN => Str value | _ => c end)) (rows df)).

(** Position of a label among the columns. *)
Definition col_index (c : string) (cols : list string) : option nat :=
  fst <$> list_find (eq c) cols.

(** A row laid out for new columns: a label the frame does not have
    yields a missing value. *)
Definition reindex (new_cols old_cols : list string) (row : list cell) : list cell :=
  map (fun c => match col_index c old_cols with
                | Some i => default NaN (row !! i)
                | None => NaN
                end) new_cols.

(** [pd.concat([a, b])]: rows of [a] then rows of [b], over the union of
    the columns in order of first appearance. *)
Definition concat (a b : DataFrame) : DataFrame :=
  let cols := columns a ++ list_difference (columns b) (columns a) in
  mkDF cols (map (reindex cols (columns a)) (rows a) ++
             map (reindex cols (columns b)) (rows b)).

(** The cell of row [i] under column [c]. *)
Definition cell_at (df : DataFrame) (i : nat) (c : string) : option cell :=
  match rows df !! i, col_index c (columns df) with
  | Some row, Some j => row !! j
  | _, _ => None
  end.

(* ================================================================== *)
(** * class XL_READ *)
(* ================================================================== *)

Record XL_READ : Type := mkXL_READ {
  df_dict : odict;
  sheet_name : option string;
  xl : odict;
  sheet_names : list string
}.

(** [XL_READ(xl, sheet_name=None)] *)
Definition XL_READ_init (path : string) (name : option string) : M XL_READ :=
  let* handle := ExcelFile path in
  ret (mkXL_READ [] name handle (od_keys handle)).

(** [__len__] *)
Definition XL_READ_len (self : XL_READ) : nat := length (df_dict self).

(** [__iter__]: the pairs yielded, in order. *)
Definition XL_READ_iter (self : XL_READ) : list (string * DataFrame) := df_dict self.

(** [__getitem__] *)
Definition XL_READ_getitem (self : XL_READ) (key : string) : M DataFrame :=
  match od_get key (df_dict self) with
  | Some df => ret df
  | None => raise KeyError
  end.

(** [__setitem__] *)
Definition XL_READ_setitem (self : XL_READ) (key : string) (value : DataFrame) : XL_READ :=
  mkXL_READ (od_set key value (df_dict self)) (sheet_name self) (xl self) (sheet_names self).

(** Truth value of [self.sheet_name]: [None] and the empty string are
    false. *)
Definition truthy (s : option string) : bool :=
  match s with
  | Some (String _ _) => true
  | _ => false
  end.

(** Reading a local variable of a function: unbound until assigned. *)
Definition read_local {A} (v : option A) : M A :=
  match v with
  | Some a => ret a
  | None => raise UnboundLocalError
  end.

(** [read_sheets].  The name [sheet_name] in its body is a local of the
    method, assigned by the [for] statement of the [else] branch only; in
    the [if] branch it is read before any assignment. *)
Definition read_sheets (self : XL_READ) : M XL_READ :=
  let local_sheet_name : option string := None in
  if truthy (sheet_name self) then
    let* arg := read_local local_sheet_name in
    let* df := parse (xl self) arg in
    ret (XL_READ_setitem self (default EmptyString (sheet_name self)) df)
  else
    for_each (sheet_names self)
      (fun self sheet_name =>
         let* df := parse (xl self) sheet_name in
         ret (XL_READ_setitem self sheet_name df))
      self.

(** [read_xl(file)] *)
Definition read_xl (path : string) : M XL_READ :=
  let* xlrd := XL_READ_init path None in
  read_sheets xlrd.

(** [get_merged_DataFrame_of_file(file)] *)
Definition get_merged_DataFrame_of_file (path : string) : M DataFrame :=
  let* xlr := read_xl path in
  for_each (XL_READ_iter xlr)
    (fun df kv => let v := fillna EmptyString kv.2 in ret (concat v df))
    empty_DataFrame.

(* ================================================================== *)
(** * class XL_WRITE *)
(* ================================================================== *)

Section Writer.

Variable lib : pandas_writer.

(** Entering [with pd.ExcelWriter(path) as writer_file]. *)
Definition ExcelWriter_enter (path : string) : M (book lib) :=
  if has_engine lib path then ret (new_book lib) else raise NoEngineError.

(** Leaving the [with] block: the workbook is saved at [path]; when
    saving raises, what is left there is not a workbook. *)
Definition ExcelWriter_exit (path : string) (writer_file : book lib) : M unit :=
  fun w =>
    match save lib writer_file with
    | Some sheets =>
        (Ret tt, mkWorld (<[path := Workbook sheets]> (fs w)) (stdout w) (calls w))
    | None =>
        (Exc SaveError, mkWorld (<[path := Malformed]> (fs w)) (stdout w) (calls w))
    end.

(** [df.to_excel(writer_file, sheet_name=sht_name, index=index,
    index_label=index_label)] *)
Definition df_to_excel (writer_file : book lib) (sht_name : string) (df : DataFrame)
    (index : bool) (index_label : string) : M (book lib) :=
  fun w =>
    let w' := mkWorld (fs w) (stdout w) (calls w ++ [Call_to_excel sht_name]) in
    match to_excel lib writer_file sht_name df index index_label with
    | (true, writer_file') => (Ret writer_file', w')
    | (false, _) => (Exc SheetWriteError, w')
    end.

(** The workbook as that call leaves it, which is what an [except]
    branch after the call goes on with. *)
Definition book_left (writer_file : book lib) (sht_name : string) (df : DataFrame)
    (index : bool) (index_label : string) : book lib :=
  (to_excel lib writer_file sht_name df index index_label).2.

(** [get_valid_file_name]: the [while True] loop, cut after [fuel]
    rounds. *)
Fixpoint probe_loop (fuel : nat) (file_name file : string) (n : nat) : M string :=
  match fuel with
  | 0 => fun w => (OutOfFuel, w)
  | S fuel' =>
      let* next :=
        try_except
          (XL_READ_init file None ;;
           let n := n + 1 in
           ret (Some (copy_of_file file_name n, n)))
          (ret None) in
      match next with
      | Some (file', n') => probe_loop fuel' file_name file' n'
      | None => ret file
      end
  end.

(** The loop opens a different path in every round and goes on only while
    the path holds a workbook, so one round more than there are files is
    enough ([get_valid_file_name_returns] below). *)
Definition get_valid_file_name (file : string) : M string :=
  fun w => probe_loop (S (size (fs w))) file file 0 w.

Definition msg_failed (fileName sht_name : string) : string :=
  "writing data for " +:+ fileName +:+ " sheet " +:+ sht_name +:+
  " ...failed!!!, length of sheet name = " +:+ PyStr.str (String.length sht_name).

Definition msg_trunked_done (fileName sht_name : string) : string :=
  "instead data for " +:+ fileName +:+ " sheet " +:+ PyStr.prefix 31 sht_name +:+
  " - trunked ...done!".

Definition msg_trunked_failed (fileName sht_name : string) : string :=
  "writing data for " +:+ fileName +:+ " sheet " +:+ PyStr.prefix 31 sht_name +:+
  " - trunked ...failed!!!".


(** The body of the [for sht_name, df in df_dict.items()] loop. *)
Definition write_sheet (fileName : string) (index : bool) (index_label : string)
    (writer_file : book lib) (item : string * DataFrame) : M (book lib) :=
  let '(sht_name, df) := item in
  try_except
    (df_to_excel writer_file sht_name df index index_label)
    (let writer_file := book_left writer_file sht_name df index index_label in
     try_except
       (print (msg_failed fileName sht_name) ;;
        let* writer_file' :=
          df_to_excel writer_file (PyStr.prefix 31 sht_name) df index index_label in
        print (msg_trunked_done fileName sht_name) ;;
        ret writer_file')
       (print (msg_trunked_failed fileName sht_name) ;;
        ret (book_left writer_file (PyStr.prefix 31 sht_name) df index index_label))).

(** The [with pd.ExcelWriter(fileName) as writer_file:] block of
    [write].  Its body does not raise ([write_sheets_run] below), so the
    block is left normally whenever it was entered. *)
Definition write_file (fileName : string) (dfs : odict) (index : bool)
    (index_label : string) : M unit :=
  let* writer_file := ExcelWriter_enter fileName in
  let* writer_file := for_each dfs (write_sheet fileName index index_label) writer_file in
  ExcelWriter_exit fileName writer_file.

(** [XL_WRITE.write] *)
Definition write (name : string) (dfs : odict) (index : bool)
    (index_label : string) (overwrite : bool) : M unit :=
  let* fileName := (if overwrite then ret name else get_valid_file_name name) in
  write_file fileName dfs index index_label.

(** [XL_WRITE(name, df_dict, index=False, overwrite=False, index_label='')] *)
Definition XL_WRITE_init (name : string) (dfs : odict) (index overwrite : bool)
    (index_label : string) : M unit :=
  write name dfs index index_label overwrite.

(** [write_to_xl(file, df_dict, index=False, overwrite=False, index_label='')] *)
Definition write_to_xl (path : string) (dfs : odict) (index overwrite : bool)
    (index_label : string) : M unit :=
  XL_WRITE_init path dfs index overwrite index_label.

(** [append_to_xl(file, df_dict, overwrite=True, index_label='')] *)
Definition append_to_xl (path : string) (dfs : odict) (overwrite : bool)
    (index_label : string) : M unit :=
  let* prev_dict :=
    try_except
      (let* xlrd := read_xl path in ret (df_dict xlrd))
      (ret []) in
  let prev_dict := od_update prev_dict dfs in
  (if overwrite then try_except (os_remove path) (ret tt) else ret tt) ;;
  write_to_xl path prev_dict false overwrite index_label.

End Writer.

(* ================================================================== *)
(** * Vocabulary of the statements *)
(* ================================================================== *)

(** The two parts [copy_of_file] cuts a name into. *)
Definition base_name (path : string) : string :=
  PyStr.join "." (PyStr.but_last (PyStr.split_dot path)).

Definition extension (path : string) : string :=
  PyStr.last_seg (PyStr.split_dot path).

(** The paths the probe visits: the target, then its numbered copies. *)
Definition candidate (path : string) (n : nat) : string :=
  match n with
  | 0 => path
  | S _ => copy_of_file path n
  end.

(** Does [pd.ExcelFile] succeed on the path? *)
Definition opens (files : gmap string file) (path : string) : bool :=
  match files !! path with
  | Some (Workbook _) => true
  | _ => false
  end.

(** The [pd.ExcelFile] calls of a probe that stops at candidate [k]. *)
Definition probes (path : string) (k : nat) : list call :=
  (fun n => Call_ExcelFile (candidate path n)) <$> seq 0 (S k).

(** [cand] is [orig] with [suffix] put in at some position. *)
Definition inserted (suffix orig cand : string) : Prop :=
  exists pre post, orig = pre +:+ post /\ cand = pre +:+ suffix +:+ post.

(** What [read_sheets] loads from a workbook handle when no sheet is
    singled out. *)
Definition loaded (handle : odict) (d : odict) : odict :=
  foldl (fun acc name => od_set name (default empty_DataFrame (od_get name handle)) acc)
        d (od_keys handle).

(** The key order after [d[k] = ...]. *)
Definition key_added (keys : list string) (k : string) : list string :=
  if decide (k ∈ keys) then keys else keys ++ [k].

Section WriterVocabulary.

Variable lib : pandas_writer.
Variables (fileName : string) (index : bool) (index_label : string).

(** How one sheet of the loop ends. *)
Inductive sheet_result : Type :=
| Written_full
| Written_truncated
| Skipped.

Definition sheet_outcome (b : book lib) (item : string * DataFrame) : sheet_result :=
  match to_excel lib b item.1 item.2 index index_label with
  | (true, _) => Written_full
  | (false, b1) =>
      match to_excel lib b1 (PyStr.prefix 31 item.1) item.2 index index_label with
      | (true, _) => Written_truncated
      | (false, _) => Skipped
      end
  end.

(** The workbook after one sheet. *)
Definition add_sheet (b : book lib) (item : string * DataFrame) : book lib :=
  match to_excel lib b item.1 item.2 index index_label with
  | (true, b1) => b1
  | (false, b1) =>
      (to_excel lib b1 (PyStr.prefix 31 item.1) item.2 index index_label).2
  end.

(** The sheet names handed to [to_excel] for one sheet. *)
Definition attempts (b : book lib) (item : string * DataFrame) : list string :=
  match sheet_outcome b item with
  | Written_full => [item.1]
  | _ => [item.1; PyStr.prefix 31 item.1]
  end.

(** The lines printed for one sheet. *)
Definition diagnostics (b : book lib) (item : string * DataFrame) : list string :=
  match sheet_outcome b item with
  | Written_full => []
  | Written_truncated => [msg_failed fileName item.1; msg_trunked_done fileName item.1]
  | Skipped => [msg_failed fileName item.1; msg_trunked_failed fileName item.1]
  end.

(** The same along the whole loop. *)
Fixpoint all_attempts (b : book lib) (dfs : odict) : list string :=
  match dfs with
  | [] => []
  | item :: dfs' => attempts b item ++ all_attempts (add_sheet b item) dfs'
  end.

Fixpoint all_diagnostics (b : book lib) (dfs : odict) : list string :=
  match dfs with
  | [] => []
  | item :: dfs' => diagnostics b item ++ all_diagnostics (add_sheet b item) dfs'
  end.

Definition book_after (b : book lib) (dfs : odict) : book lib :=
  foldl add_sheet b dfs.

(** The number of sheets that [to_excel] refuses under their full name. *)
Fixpoint refused (b : book lib) (dfs : odict) : nat :=
  match dfs with
  | [] => 0
  | item :: dfs' =>
      (if (to_excel lib b item.1 item.2 index index_label).1 then 0 else 1)
      + refused (add_sheet b item) dfs'
  end.

(** What the [with] block at [fileName] comes to: without an engine
    nothing happens; otherwise the sheets are tried in turn and the
    workbook is saved, or cannot be. *)
Definition write_file_result (dfs : odict) (w : world) : outcome unit * world :=
  if has_engine lib fileName then
    let out := stdout w ++ all_diagnostics (new_book lib) dfs in
    let cs := calls w ++ (Call_to_excel <$> all_attempts (new_book lib) dfs) in
    match save lib (book_after (new_book lib) dfs) with
    | Some sheets => (Ret tt, mkWorld (<[fileName := Workbook sheets]> (fs w)) out cs)
    | None => (Exc SaveError, mkWorld (<[fileName := Malformed]> (fs w)) out cs)
    end
  else (Exc NoEngineError, w).

End WriterVocabulary.

(* ------------------------------------------------------------------ *)
(** ** A writer to run the program with *)
(* ------------------------------------------------------------------ *)

(** The characters the demonstration writer refuses in a sheet name. *)
Definition demo_illegal : list ascii := ["/"; ":"]%char.

Definition demo_legal (name : string) : bool :=
  bool_decide (String.length name <= 31) &&
  forallb (fun c => negb (bool_decide (c ∈ demo_illegal)))
          (String.list_ascii_of_string name).

(** One instance of [pandas_writer], used to run the program on
    concrete inputs; the theorems hold for every instance.  It has an
    engine for the extension [xlsx] only; it refuses a sheet whose name is
    longer than 31 characters, has a refused character or is in the
    workbook already, and then leaves the workbook as it was; it stores
    tables as they are; and, as pandas with openpyxl, it cannot save a
    workbook without a sheet. *)
Definition demo_writer : pandas_writer :=
  {| book := odict;
     has_engine := fun path => bool_decide (extension path = "xlsx");
     new_book := [];
     to_excel := fun b name df _ _ =>
       if demo_legal name && bool_decide (name ∉ od_keys b)
       then (true, b ++ [(name, df)]) else (false, b);
     save := fun b => match b with [] => None | _ => Some b end |}.

(** The world after further calls into pandas. *)
Definition after_calls (w : world) (l : list call) : world :=
  mkWorld (fs w) (stdout w) (calls w ++ l).

(** The sheets a path holds, none when it does not open as a workbook. *)
Definition existing_sheets (files : gmap string file) (path : string) : odict :=
  match files !! path with
  | Some (Workbook sheets) => sheets
  | _ => []
  end.

(** A world with the given files, nothing printed and no call made. *)
Definition world_of (files : gmap string file) : world := mkWorld files [] [].

(** A table whose labels are distinct and whose rows are as long as it
    has columns. *)
Definition well_formed (df : DataFrame) : Prop :=
  NoDup (columns df) /\
  Forall (fun row => length row = length (columns df)) (rows df).

(** One round of the loop of [get_merged_DataFrame_of_file]. *)
Definition merge_step (df : DataFrame) (kv : string * DataFrame) : DataFrame :=
  concat (fillna EmptyString kv.2) df.

(** [write_to_xl] called [n] times in a row with the same arguments and
    without [overwrite]; a call that raises ends the sequence. *)
Fixpoint write_times (lib : pandas_writer) (n : nat) (path : string) (dfs : odict)
    (index : bool) (index_label : string) : M unit :=
  match n with
  | 0 => ret tt
  | S n' =>
      write_to_xl lib path dfs index false index_label ;;
      write_times lib n' path dfs index index_label
  end.

(* ================================================================== *)
(** * Running the program on small inputs *)
(* ================================================================== *)

Example copy_of_file_1 : copy_of_file "X.xlsx" 1 = "X - Copy.xlsx".
Proof. vm_compute. reflexivity. Qed.

Example copy_of_file_2 : copy_of_file "X.xlsx" 2 = "X - Copy (2).xlsx".
Proof. vm_compute. reflexivity. Qed.

Example copy_of_file_dots : copy_of_file "a.b.c.xlsx" 12 = "a.b.c - Copy (12).xlsx".
Proof. vm_compute. reflexivity. Qed.

Example copy_of_file_nodot : copy_of_file "data" 1 = " - Copy.data".
Proof. vm_compute. reflexivity. Qed.


(* ================================================================== *)
(** * Strings: append, split and join *)
(* ================================================================== *)

Section StringFacts.

Implicit Types s t u : string.

Lemma app_nil_l_s s : EmptyString +:+ s = s.
Proof. reflexivity. Qed.

Lemma app_cons_s c s t : String c s +:+ t = String c (s +:+ t).
Proof. reflexivity. Qed.

Lemma app_nil_r_s s : s +:+ EmptyString = s.
Proof. induction s as [|c s IH]; [done|]. by rewrite app_cons_s, IH. Qed.

Lemma app_assoc_s s t u : (s +:+ t) +:+ u = s +:+ t +:+ u.
Proof. induction s as [|c s IH]; [done|]. by rewrite !app_cons_s, IH. Qed.

Lemma length_app_s s t : String.length (s +:+ t) = String.length s + String.length t.
Proof. induction s as [|c s IH]; [done|]. rewrite app_cons_s. simpl. by rewrite IH. Qed.

(** Cancelling a common tail. *)
Lemma app_inj_r_s s1 s2 t : s1 +:+ t = s2 +:+ t -> s1 = s2.
Proof.
  revert s2. induction s1 as [|c s1 IH]; intros [|d s2] H.
  - done.
  - apply (f_equal String.length) in H.
    rewrite app_nil_l_s, app_cons_s in H. simpl in H. rewrite length_app_s in H. lia.
  - apply (f_equal String.length) in H.
    rewrite app_nil_l_s, app_cons_s in H. simpl in H. rewrite length_app_s in H. lia.
  - rewrite !app_cons_s in H. injection H as -> H. f_equal. by apply IH.
Qed.

Lemma split_dot_nonempty s : PyStr.split_dot s <> [].
Proof.
  destruct s as [|c s]; simpl; [done|].
  destruct (Ascii.eqb c "."); [done|]. by destruct (PyStr.split_dot s).
Qed.

(** A name without a dot is its own single segment. *)
Lemma split_dot_nodot s : PyStr.has_dot s = false -> PyStr.split_dot s = [s].
Proof.
  induction s as [|c s IH]; simpl; [done|].
  destruct (Ascii.eqb c "."); simpl; [done|].
  intros H. by rewrite IH.
Qed.

(** Splitting distributes over a dot. *)
Lemma split_dot_app s t :
  PyStr.split_dot (s +:+ "." +:+ t) = PyStr.split_dot s ++ PyStr.split_dot t.
Proof.
  induction s as [|c s IH].
  - reflexivity.
  - rewrite app_cons_s. simpl. rewrite IH.
    destruct (Ascii.eqb c "."); [done|].
    pose proof (split_dot_nonempty s).
    by destruct (PyStr.split_dot s).
Qed.

Lemma join_cons sep x y l :
  PyStr.join sep (x :: y :: l) = x +:+ sep +:+ PyStr.join sep (y :: l).
Proof. reflexivity. Qed.

(** Joining the segments gives the name back. *)
Lemma join_split_dot s : PyStr.join "." (PyStr.split_dot s) = s.
Proof.
  induction s as [|c s IH]; [done|]. simpl.
  destruct (Ascii.eqb_spec c ".") as [->|Hc].
  - pose proof (split_dot_nonempty s).
    destruct (PyStr.split_dot s) as [|y l] eqn:E; [done|].
    by rewrite join_cons, IH.
  - pose proof (split_dot_nonempty s).
    destruct (PyStr.split_dot s) as [|y l] eqn:E; [done|].
    destruct l as [|z l].
    + simpl in *. by rewrite IH.
    + rewrite join_cons in *. rewrite app_cons_s. by rewrite IH.
Qed.

Lemma but_last_snoc (l : list string) x : PyStr.but_last (l ++ [x]) = l.
Proof. apply removelast_last. Qed.

Lemma last_seg_snoc (l : list string) x : PyStr.last_seg (l ++ [x]) = x.
Proof. apply last_last. Qed.

(** The two parts of a name that has a dot before a dot-free tail. *)
Lemma base_name_dotted b e :
  PyStr.has_dot e = false -> base_name (b +:+ "." +:+ e) = b.
Proof.
  intros He. unfold base_name.
  by rewrite split_dot_app, (split_dot_nodot e), but_last_snoc, join_split_dot.
Qed.

Lemma extension_dotted b e :
  PyStr.has_dot e = false -> extension (b +:+ "." +:+ e) = e.
Proof.
  intros He. unfold extension.
  by rewrite split_dot_app, (split_dot_nodot e), last_seg_snoc.
Qed.

(** The two parts of a name without a dot. *)
Lemma base_name_nodot s : PyStr.has_dot s = false -> base_name s = EmptyString.
Proof. intros H. unfold base_name. by rewrite split_dot_nodot. Qed.

Lemma extension_nodot s : PyStr.has_dot s = false -> extension s = s.
Proof. intros H. unfold extension. by rewrite split_dot_nodot. Qed.

Lemma copy_of_file_parts path n :
  copy_of_file path n =
  base_name path +:+ " - Copy" +:+ next_num n +:+ "." +:+ extension path.
Proof. reflexivity. Qed.

(** The two parts are no shorter than the name less its last dot. *)
Lemma length_parts path :
  String.length path <= String.length (base_name path) + 1 + String.length (extension path).
Proof.
  unfold base_name, extension.
  rewrite <- (join_split_dot path) at 1.
  pose proof (split_dot_nonempty path) as Hne.
  destruct (exists_last Hne) as (l & x & ->).
  rewrite but_last_snoc, last_seg_snoc.
  clear Hne. induction l as [|y l IH]; simpl; [lia|].
  destruct (l ++ [x]) as [|z l'] eqn:E; [by destruct l|].
  rewrite !length_app_s. simpl.
  destruct l as [|y' l]; simpl in *.
  - simplify_eq. simpl. lia.
  - rewrite !length_app_s in *. simpl in *. lia.
Qed.

Lemma length_copy_of_file path n :
  String.length path < String.length (copy_of_file path n).
Proof.
  rewrite copy_of_file_parts, !length_app_s. simpl.
  pose proof (length_parts path). lia.
Qed.

Lemma next_num_inj n m : next_num n = next_num m -> n = m.
Proof.
  unfold next_num. intros H.
  destruct (decide (n = 1)) as [->|Hn], (decide (m = 1)) as [->|Hm]; try done.
  apply (inj (String.app " (")) in H.
  apply app_inj_r_s in H. by apply (inj pretty) in H.
Qed.

Lemma copy_of_file_inj path n m : copy_of_file path n = copy_of_file path m -> n = m.
Proof.
  rewrite !copy_of_file_parts. intros H.
  apply (inj (String.app _)) in H. apply (inj (String.app _)) in H.
  apply app_inj_r_s in H. by apply next_num_inj.
Qed.

(** The probe never visits a path twice. *)
Lemma candidate_inj path n m : candidate path n = candidate path m -> n = m.
Proof.
  destruct n as [|n], m as [|m]; cbn [candidate]; intros H; [done| | |].
  - pose proof (length_copy_of_file path (S m)) as Hlt.
    apply (f_equal String.length) in H. lia.
  - pose proof (length_copy_of_file path (S n)) as Hlt.
    apply (f_equal String.length) in H. lia.
  - by apply (copy_of_file_inj path).
Qed.

End StringFacts.

(* ================================================================== *)
(** * The collision probe *)
(* ================================================================== *)

Section Probe.

Lemma opens_false files path :
  opens files path = false <-> files !! path = None \/ files !! path = Some Malformed.
Proof.
  unfold opens. destruct (files !! path) as [[sheets|]|];
    split; intros H; try done; try (by right); try (by left); by destruct H.
Qed.

Lemma opens_true files path :
  opens files path = true <-> exists sheets, files !! path = Some (Workbook sheets).
Proof.
  unfold opens. destruct (files !! path) as [[sheets|]|];
    split; intros H; try done; eauto; by destruct H.
Qed.

Lemma after_calls_nil w : after_calls w [] = w.
Proof. destruct w. unfold after_calls. simpl. by rewrite app_nil_r. Qed.

Lemma after_calls_app w l1 l2 :
  after_calls (after_calls w l1) l2 = after_calls w (l1 ++ l2).
Proof. unfold after_calls. simpl. by rewrite app_assoc. Qed.

(** [XL_READ(path, name)] succeeds exactly when the path opens. *)
Lemma XL_READ_init_run path name w :
  XL_READ_init path name w =
  match fs w !! path with
  | Some (Workbook sheets) =>
      (Ret (mkXL_READ [] name sheets (od_keys sheets)), after_calls w [Call_ExcelFile path])
  | _ => (Exc OpenError, after_calls w [Call_ExcelFile path])
  end.
Proof.
  unfold XL_READ_init, bind, ExcelFile, after_calls.
  by destruct (fs w !! path) as [[sheets|]|].
Qed.

(** One round of the loop. *)
Lemma probe_loop_round fuel file_name path n w :
  probe_loop (S fuel) file_name path n w =
  if opens (fs w) path
  then probe_loop fuel file_name (copy_of_file file_name (n + 1)) (n + 1)
         (after_calls w [Call_ExcelFile path])
  else (Ret path, after_calls w [Call_ExcelFile path]).
Proof.
  cbn [probe_loop]. unfold bind at 1. unfold try_except, bind at 1.
  rewrite XL_READ_init_run. unfold opens.
  by destruct (fs w !! path) as [[sheets|]|].
Qed.

(** The loop stops at the first candidate that does not open, having
    opened each candidate before it once, in order. *)
Lemma probe_loop_stops file_name k : forall fuel n w,
  k < fuel ->
  (forall j, j < k -> opens (fs w) (candidate file_name (n + j)) = true) ->
  opens (fs w) (candidate file_name (n + k)) = false ->
  probe_loop fuel file_name (candidate file_name n) n w =
  (Ret (candidate file_name (n + k)),
   after_calls w ((fun i => Call_ExcelFile (candidate file_name i)) <$> seq n (S k))).
Proof.
  induction k as [|k IH]; intros fuel n w Hfuel Hopen Hstop.
  - destruct fuel as [|fuel]; [lia|].
    rewrite probe_loop_round. rewrite Nat.add_0_r in Hstop. rewrite Hstop.
    by rewrite Nat.add_0_r.
  - destruct fuel as [|fuel]; [lia|].
    rewrite probe_loop_round.
    pose proof (Hopen 0 ltac:(lia)) as H0. rewrite Nat.add_0_r in H0. rewrite H0.
    replace (copy_of_file file_name (n + 1)) with (candidate file_name (n + 1))
      by (by rewrite Nat.add_1_r).
    rewrite (IH fuel (n + 1)); [| lia | |].
    + rewrite after_calls_app. do 2 f_equal; [f_equal; lia|].
      rewrite Nat.add_1_r. reflexivity.
    + intros j Hj. simpl. replace (n + 1 + j) with (n + S j) by lia.
      apply Hopen. lia.
    + simpl. by replace (n + 1 + k) with (n + S k) by lia.
Qed.

(** Candidates that all open are so many different files. *)
Lemma open_candidates_bound (files : gmap string file) path k :
  (forall j, j < k -> opens files (candidate path j) = true) ->
  k <= size files.
Proof.
  intros Hopen.
  set (l := candidate path <$> seq 0 k).
  assert (NoDup l) as Hnd.
  { apply NoDup_fmap_2; [|apply NoDup_seq].
    intros i j. apply candidate_inj. }
  assert (l ⊆ elements (dom files)) as Hsub.
  { intros x Hx. apply list_elem_of_fmap in Hx as (j & -> & Hj).
    apply elem_of_seq in Hj. apply elem_of_elements, elem_of_dom.
    specialize (Hopen j ltac:(lia)). apply opens_true in Hopen as [sheets ->]. eauto. }
  pose proof (submseteq_length _ _ (NoDup_submseteq _ _ Hnd Hsub)) as Hlen.
  unfold l in Hlen. rewrite length_fmap, length_seq in Hlen.
  by rewrite <- size_dom.
Qed.

(** Some candidate does not open, and there is a first one. *)
Lemma first_free_candidate (files : gmap string file) path :
  exists k, k <= size files /\
    (forall j, j < k -> opens files (candidate path j) = true) /\
    opens files (candidate path k) = false.
Proof.
  assert (forall m, (forall j, j < m -> opens files (candidate path j) = true) \/
                    exists k, k < m /\
                      (forall j, j < k -> opens files (candidate path j) = true) /\
                      opens files (candidate path k) = false) as Hsearch.
  { induction m as [|m [IH|IH]].
    - left. intros j Hj. lia.
    - destruct (opens files (candidate path m)) eqn:E.
      + left. intros j Hj. destruct (decide (j = m)) as [->|]; [done|]. apply IH. lia.
      + right. exists m. split; [lia|]. done.
    - right. destruct IH as (k & Hk & H). exists k. split; [lia|done]. }
  destruct (Hsearch (S (size files))) as [Hall|(k & Hk & Hopen & Hstop)].
  - apply open_candidates_bound in Hall. lia.
  - exists k. split; [lia|done].
Qed.

(** [get_valid_file_name] returns: the fuel it is given is enough. *)
Lemma get_valid_file_name_stops path k w :
  (forall j, j < k -> opens (fs w) (candidate path j) = true) ->
  opens (fs w) (candidate path k) = false ->
  get_valid_file_name path w = (Ret (candidate path k), after_calls w (probes path k)).
Proof.
  intros Hopen Hstop. unfold get_valid_file_name.
  pose proof (open_candidates_bound _ _ _ Hopen) as Hk.
  change path with (candidate path 0) at 2.
  rewrite (probe_loop_stops path k); [done|lia|done|done].
Qed.

Lemma get_valid_file_name_returns path w :
  exists k, k <= size (fs w) /\
    (forall j, j < k -> opens (fs w) (candidate path j) = true) /\
    opens (fs w) (candidate path k) = false /\
    get_valid_file_name path w = (Ret (candidate path k), after_calls w (probes path k)).
Proof.
  destruct (first_free_candidate (fs w) path) as (k & Hk & Hopen & Hstop).
  exists k. repeat split; try done. by apply get_valid_file_name_stops.
Qed.

End Probe.

(* ================================================================== *)
(** * The sheet loop of [XL_WRITE.write] *)
(* ================================================================== *)

Section PrefixFacts.

Lemma prefix_nil k : PyStr.prefix k EmptyString = EmptyString.
Proof. by destruct k. Qed.

Lemma prefix_cons k c s : PyStr.prefix (S k) (String c s) = String c (PyStr.prefix k s).
Proof. reflexivity. Qed.

Lemma prefix_length k : forall s,
  String.length (PyStr.prefix k s) = min k (String.length s).
Proof.
  induction k as [|k IH]; intros [|c s]; try done.
  rewrite prefix_cons. simpl. by rewrite IH.
Qed.

Lemma prefix_short k : forall s, String.length s <= k -> PyStr.prefix k s = s.
Proof.
  induction k as [|k IH]; intros [|c s] Hlen; try done.
  - simpl in Hlen. lia.
  - rewrite prefix_cons. rewrite IH; [done|]. simpl in Hlen. lia.
Qed.

Lemma prefix_app k : forall s, exists rest, s = PyStr.prefix k s +:+ rest.
Proof.
  induction k as [|k IH]; intros [|c s].
  - by exists EmptyString.
  - by exists (String c s).
  - by exists EmptyString.
  - destruct (IH s) as [rest Hrest]. exists rest.
    rewrite prefix_cons, app_cons_s. by rewrite <- Hrest.
Qed.

End PrefixFacts.

Section WriterFacts.

Variable lib : pandas_writer.
Variables (index : bool) (index_label : string).

Lemma df_to_excel_run b sht_name df w :
  df_to_excel lib b sht_name df index index_label w =
  match to_excel lib b sht_name df index index_label with
  | (true, b') => (Ret b', after_calls w [Call_to_excel sht_name])
  | (false, _) => (Exc SheetWriteError, after_calls w [Call_to_excel sht_name])
  end.
Proof. unfold df_to_excel, after_calls. by destruct to_excel as [[|] b']. Qed.

(** One sheet of the loop: it never raises, whatever [to_excel] does. *)
Lemma write_sheet_run fileName b item w :
  write_sheet lib fileName index index_label b item w =
  (Ret (add_sheet lib index index_label b item),
   mkWorld (fs w)
           (stdout w ++ diagnostics lib fileName index index_label b item)
           (calls w ++ (Call_to_excel <$> attempts lib index index_label b item))).
Proof.
  destruct item as [sht_name df].
  unfold write_sheet, add_sheet, attempts, diagnostics, sheet_outcome, book_left.
  cbn [fst snd].
  unfold try_except at 1. rewrite df_to_excel_run.
  destruct (to_excel lib b sht_name df index index_label) as [[|] b1] eqn:E1.
  - unfold after_calls. simpl. by rewrite app_nil_r.
  - cbn [snd]. unfold try_except, bind, print. cbn [fs stdout calls after_calls].
    rewrite df_to_excel_run.
    destruct (to_excel lib b1 (PyStr.prefix 31 sht_name) df index index_label)
      as [[|] b2] eqn:E2; unfold after_calls, ret; cbn [fs stdout calls snd fmap list_fmap];
      by rewrite <- !app_assoc.
Qed.

(** The whole loop. *)
Lemma write_sheets_run fileName dfs : forall b w,
  for_each dfs (write_sheet lib fileName index index_label) b w =
  (Ret (book_after lib index index_label b dfs),
   mkWorld (fs w)
           (stdout w ++ all_diagnostics lib fileName index index_label b dfs)
           (calls w ++ (Call_to_excel <$> all_attempts lib index index_label b dfs))).
Proof.
  induction dfs as [|item dfs IH]; intros b w.
  - simpl. unfold ret. destruct w. simpl. by rewrite !app_nil_r.
  - cbn [for_each]. unfold bind. rewrite write_sheet_run, IH. simpl.
    by rewrite fmap_app, !app_assoc.
Qed.

(** The [with] block. *)
Lemma write_file_run fileName dfs w :
  write_file lib fileName dfs index index_label w =
  write_file_result lib fileName index index_label dfs w.
Proof.
  unfold write_file, write_file_result, ExcelWriter_enter.
  destruct (has_engine lib fileName); [|done].
  unfold bind at 1. unfold ret at 1. unfold bind. rewrite write_sheets_run.
  unfold ExcelWriter_exit. cbn [fs stdout calls].
  by destruct (save lib _).
Qed.

(** Writing in place and writing after the probe. *)
Lemma write_overwrite_run name dfs w :
  write lib name dfs index index_label true w =
  write_file lib name dfs index index_label w.
Proof. reflexivity. Qed.

Lemma write_probe_run name dfs k w :
  (forall j, j < k -> opens (fs w) (candidate name j) = true) ->
  opens (fs w) (candidate name k) = false ->
  write lib name dfs index index_label false w =
  write_file lib (candidate name k) dfs index index_label (after_calls w (probes name k)).
Proof.
  intros Hopen Hstop. unfold write, bind.
  by rewrite (get_valid_file_name_stops name k w Hopen Hstop).
Qed.

(** The [with] block touches no path but its own. *)
Lemma write_file_other_paths fileName dfs w p :
  p <> fileName ->
  fs (write_file lib fileName dfs index index_label w).2 !! p = fs w !! p.
Proof.
  intros Hp. rewrite write_file_run. unfold write_file_result.
  destruct (has_engine lib fileName); [|done].
  destruct (save lib _); cbn [snd fs]; by rewrite lookup_insert_ne.
Qed.

Lemma attempts_length b item :
  1 <= length (attempts lib index index_label b item) <= 2.
Proof. unfold attempts. destruct sheet_outcome; simpl; lia. Qed.

End WriterFacts.

(* ================================================================== *)
(** * Ordered dictionaries *)
(* ================================================================== *)

Section DictFacts.

Implicit Types d e : odict.

Lemma od_get_None k d : od_get k d = None <-> k ∉ od_keys d.
Proof.
  unfold od_keys. induction d as [|[k' v'] d IH]; simpl.
  - split; [intros _; apply not_elem_of_nil|done].
  - rewrite not_elem_of_cons. destruct (decide (k = k')) as [->|Hne].
    + split; [done|]. by intros [? _].
    + rewrite IH. split; [done|]. by intros [_ ?].
Qed.

Lemma od_get_Some_keys k v d : od_get k d = Some v -> k ∈ od_keys d.
Proof.
  intros H. destruct (decide (k ∈ od_keys d)) as [|Hn]; [done|].
  apply od_get_None in Hn. congruence.
Qed.

Lemma od_get_keys k d : k ∈ od_keys d -> is_Some (od_get k d).
Proof.
  intros H. destruct (od_get k d) eqn:E; [eauto|].
  by apply od_get_None in E.
Qed.

Lemma od_get_app k d e :
  od_get k (d ++ e) = match od_get k d with Some v => Some v | None => od_get k e end.
Proof.
  induction d as [|[k' v'] d IH]; simpl; [done|].
  by destruct (decide (k = k')).
Qed.

(** A new key goes last. *)
Lemma od_set_fresh k v d : k ∉ od_keys d -> od_set k v d = d ++ [(k, v)].
Proof.
  unfold od_keys. induction d as [|[k' v'] d IH]; simpl; [done|].
  rewrite not_elem_of_cons. intros [Hne Hd].
  destruct (decide (k = k')); [done|]. by rewrite IH.
Qed.

(** A present key keeps its place: the keys are as before. *)
Lemma od_set_present k v d : k ∈ od_keys d -> od_keys (od_set k v d) = od_keys d.
Proof.
  unfold od_keys. induction d as [|[k' v'] d IH]; simpl.
  - intros H. by apply elem_of_nil in H.
  - intros H. destruct (decide (k = k')) as [->|Hne]; [done|].
    simpl. f_equal. apply IH. apply elem_of_cons in H as [?|?]; done.
Qed.

Lemma od_keys_set k v d : od_keys (od_set k v d) = key_added (od_keys d) k.
Proof.
  unfold key_added. destruct (decide (k ∈ od_keys d)) as [Hin|Hnin].
  - by apply od_set_present.
  - rewrite od_set_fresh by done. unfold od_keys. by rewrite fmap_app.
Qed.

Lemma key_added_NoDup keys k : NoDup keys -> NoDup (key_added keys k).
Proof.
  intros H. unfold key_added. destruct (decide (k ∈ keys)); [done|].
  apply NoDup_app. split; [done|]. split; [|apply NoDup_singleton].
  intros x Hx Hx'. apply list_elem_of_singleton in Hx'. by subst.
Qed.

Lemma od_set_NoDup k v d : NoDup (od_keys d) -> NoDup (od_keys (od_set k v d)).
Proof. rewrite od_keys_set. apply key_added_NoDup. Qed.

Lemma od_get_set_eq k v d : od_get k (od_set k v d) = Some v.
Proof.
  induction d as [|[k' v'] d IH]; simpl.
  - by rewrite decide_True.
  - destruct (decide (k = k')) as [->|Hne]; simpl.
    + by rewrite decide_True.
    + by rewrite decide_False.
Qed.

Lemma od_get_set_ne k k' v d : k' <> k -> od_get k' (od_set k v d) = od_get k' d.
Proof.
  intros Hne. induction d as [|[k2 v2] d IH]; simpl.
  - by rewrite decide_False.
  - destruct (decide (k = k2)) as [->|Hne2]; simpl.
    + by rewrite !decide_False.
    + destruct (decide (k' = k2)); [done|]. apply IH.
Qed.

(** Where a key sits is where it first sat. *)
Lemma od_set_position k v d i k' :
  od_keys d !! i = Some k' -> od_keys (od_set k v d) !! i = Some k'.
Proof.
  rewrite od_keys_set. unfold key_added. destruct (decide (k ∈ od_keys d)); [done|].
  intros H. by apply lookup_app_l_Some.
Qed.

(** [d.update(e)]: keys stay unique, [e] wins, the rest is kept. *)
Lemma od_update_NoDup e : forall d, NoDup (od_keys d) -> NoDup (od_keys (od_update d e)).
Proof.
  unfold od_update. induction e as [|[k v] e IH]; intros d Hd; simpl; [done|].
  apply IH. by apply od_set_NoDup.
Qed.

Lemma od_get_update_kept k e : forall d,
  k ∉ od_keys e -> od_get k (od_update d e) = od_get k d.
Proof.
  unfold od_update, od_keys. induction e as [|[k' v'] e IH]; intros d Hk; simpl; [done|].
  simpl in Hk. apply not_elem_of_cons in Hk as [Hne Hk].
  rewrite IH by done. by apply od_get_set_ne.
Qed.

Lemma od_get_update_new k v e : forall d,
  NoDup (od_keys e) -> od_get k e = Some v -> od_get k (od_update d e) = Some v.
Proof.
  unfold od_update, od_keys. induction e as [|[k' v'] e IH]; intros d Hnd Hk; simpl in *; [done|].
  apply NoDup_cons in Hnd as [Hk' Hnd].
  destruct (decide (k = k')) as [->|Hne].
  - injection Hk as ->.
    change (foldl _ ?a e) with (od_update a e).
    rewrite od_get_update_kept by done. apply od_get_set_eq.
  - by apply IH.
Qed.

(** The key order after an update: old keys in place, new keys after
    them in the order of [e]. *)
Lemma od_keys_update e : forall d,
  od_keys (od_update d e) = foldl key_added (od_keys d) (od_keys e).
Proof.
  unfold od_update. induction e as [|[k v] e IH]; intros d; simpl; [done|].
  by rewrite IH, od_keys_set.
Qed.

Lemma od_update_fresh e : forall d,
  NoDup (od_keys (d ++ e)) -> od_update d e = d ++ e.
Proof.
  unfold od_update. induction e as [|[k v] e IH]; intros d Hnd; simpl.
  - by rewrite app_nil_r.
  - assert (k ∉ od_keys d) as Hk.
    { unfold od_keys in *. rewrite fmap_app in Hnd. apply NoDup_app in Hnd as (_ & Hd & _).
      intros Hin. apply (Hd k Hin). simpl. apply list_elem_of_here. }
    rewrite od_set_fresh by done.
    rewrite IH; rewrite <- app_assoc; done.
Qed.

(** Loading a workbook whose sheet names are unique gives its sheets, in
    on-disk order. *)
Lemma loaded_from suf : forall pre handle,
  handle = pre ++ suf -> NoDup (od_keys handle) ->
  foldl (fun acc name => od_set name (default empty_DataFrame (od_get name handle)) acc)
        pre (od_keys suf) = handle.
Proof.
  induction suf as [|[k v] suf IH]; intros pre handle -> Hnd; simpl.
  - by rewrite app_nil_r.
  - assert (k ∉ od_keys pre) as Hk.
    { unfold od_keys in *. rewrite fmap_app in Hnd. apply NoDup_app in Hnd as (_ & Hd & _).
      intros Hin. apply (Hd k Hin). simpl. apply list_elem_of_here. }
    rewrite od_get_app. apply od_get_None in Hk as Hget. rewrite Hget. simpl.
    rewrite decide_True by done. simpl.
    rewrite od_set_fresh by done.
    rewrite (IH (pre ++ [(k, v)]) (pre ++ (k, v) :: suf)); [done| |done].
    by rewrite <- app_assoc.
Qed.

Lemma loaded_unique handle : NoDup (od_keys handle) -> loaded handle [] = handle.
Proof. intros H. unfold loaded. by apply (loaded_from handle [] handle). Qed.

(** Whatever the workbook, what is loaded has unique names and answers
    lookups as the workbook does. *)
Lemma loaded_fold_NoDup handle names : forall d,
  NoDup (od_keys d) ->
  NoDup (od_keys (foldl (fun acc name =>
            od_set name (default empty_DataFrame (od_get name handle)) acc) d names)).
Proof.
  induction names as [|k names IH]; intros d Hd; simpl; [done|].
  apply IH. by apply od_set_NoDup.
Qed.

Lemma loaded_fold_keys handle names : forall d,
  od_keys (foldl (fun acc name =>
            od_set name (default empty_DataFrame (od_get name handle)) acc) d names)
  = foldl key_added (od_keys d) names.
Proof.
  induction names as [|k names IH]; intros d; simpl; [done|].
  by rewrite IH, od_keys_set.
Qed.

Lemma loaded_fold_get handle names k : forall d,
  k ∈ names -> k ∈ od_keys handle ->
  od_get k (foldl (fun acc name =>
            od_set name (default empty_DataFrame (od_get name handle)) acc) d names)
  = od_get k handle.
Proof.
  intros d Hk Hh. revert d.
  induction names as [|k' names IH]; intros d; simpl.
  - by apply elem_of_nil in Hk.
  - destruct (decide (k ∈ names)) as [Hin|Hnin]; [by apply IH|].
    apply elem_of_cons in Hk as [->|?]; [|done].
    assert (forall d', od_get k' d' = od_get k' handle ->
              od_get k' (foldl (fun acc name =>
                 od_set name (default empty_DataFrame (od_get name handle)) acc) d' names)
              = od_get k' handle) as Hkeep.
    { clear IH. induction names as [|k2 names IH2]; intros d' Hd'; simpl; [done|].
      apply not_elem_of_cons in Hnin as [Hne Hnin].
      apply IH2; [done|]. by rewrite od_get_set_ne. }
    apply Hkeep. rewrite od_get_set_eq.
    destruct (od_get_keys _ _ Hh) as [v ->]. done.
Qed.

Lemma foldl_key_added_prefix names : forall keys,
  keys `prefix_of` foldl key_added keys names.
Proof.
  induction names as [|k names IH]; intros keys; simpl; [done|].
  etrans; [|apply IH]. unfold key_added. destruct (decide (k ∈ keys)); [done|].
  by apply prefix_app_r.
Qed.

End DictFacts.

(* ================================================================== *)
(** * The reader *)
(* ================================================================== *)

Section ReaderFacts.

(** With a sheet singled out, [read_sheets] reads [sheet_name] before
    anything was assigned to it. *)
Lemma read_sheets_named self w :
  truthy (sheet_name self) = true ->
  read_sheets self w = (Exc UnboundLocalError, w).
Proof. intros H. unfold read_sheets. by rewrite H. Qed.

Lemma load_loop_run names : forall self w,
  names ⊆ od_keys (xl self) ->
  for_each names
    (fun self name =>
       let* df := parse (xl self) name in ret (XL_READ_setitem self name df))
    self w =
  (Ret (mkXL_READ
          (foldl (fun acc name =>
                    od_set name (default empty_DataFrame (od_get name (xl self))) acc)
                 (df_dict self) names)
          (sheet_name self) (xl self) (sheet_names self)), w).
Proof.
  induction names as [|k names IH]; intros self w Hsub.
  - simpl. unfold ret. by destruct self.
  - cbn [for_each]. unfold bind at 1. unfold bind at 1. unfold parse.
    assert (k ∈ od_keys (xl self)) as Hk by (apply Hsub; apply list_elem_of_here).
    destruct (od_get_keys _ _ Hk) as [df Hdf]. rewrite Hdf. unfold ret at 1 2.
    rewrite IH.
    + simpl. by rewrite Hdf.
    + simpl. intros x Hx. apply Hsub. by apply list_elem_of_further.
Qed.

(** Without one, it loads every sheet of the handle. *)
Lemma read_sheets_all self w :
  truthy (sheet_name self) = false ->
  sheet_names self = od_keys (xl self) ->
  read_sheets self w =
  (Ret (mkXL_READ (loaded (xl self) (df_dict self))
                  (sheet_name self) (xl self) (sheet_names self)), w).
Proof.
  intros Hf Hnames. unfold read_sheets. rewrite Hf.
  rewrite load_loop_run by (by rewrite Hnames).
  unfold loaded. by rewrite Hnames.
Qed.

Lemma read_xl_run path sheets w :
  fs w !! path = Some (Workbook sheets) ->
  read_xl path w =
  (Ret (mkXL_READ (loaded sheets []) None sheets (od_keys sheets)),
   after_calls w [Call_ExcelFile path]).
Proof.
  intros H. unfold read_xl, bind. rewrite XL_READ_init_run, H.
  by rewrite read_sheets_all.
Qed.

Lemma read_xl_fails path w :
  opens (fs w) path = false ->
  read_xl path w = (Exc OpenError, after_calls w [Call_ExcelFile path]).
Proof.
  intros H. unfold read_xl, bind. rewrite XL_READ_init_run.
  apply opens_false in H as [-> | ->]; done.
Qed.

End ReaderFacts.

(* ================================================================== *)
(** * Collision-avoidance names *)
(* ================================================================== *)

(** C10: for a name without a dot, [copy_of_file] takes the empty string
    as the base name and the whole name as the extension, so the copy is
    [" - Copy.<name>"] (with the number before the dot from the second
    copy on) and not the name followed by the suffix. *)
Theorem copy_of_file_without_dot (path : string) (n : nat) :
  PyStr.has_dot path = false ->
  base_name path = EmptyString /\
  extension path = path /\
  copy_of_file path n = " - Copy" +:+ next_num n +:+ "." +:+ path /\
  copy_of_file path 1 = " - Copy." +:+ path /\
  copy_of_file path 1 <> path +:+ " - Copy".
Proof.
  intros H.
  assert (forall m, copy_of_file path m = " - Copy" +:+ next_num m +:+ "." +:+ path) as Hc.
  { intros m. by rewrite copy_of_file_parts, base_name_nodot, extension_nodot. }
  repeat split.
  - by apply base_name_nodot.
  - by apply extension_nodot.
  - apply Hc.
  - by rewrite Hc.
  - rewrite Hc. intros Heq. apply (f_equal String.length) in Heq.
    rewrite !length_app_s in Heq. simpl in Heq. lia.
Qed.

Lemma copy_of_file_without_dot_witness :
  PyStr.has_dot "data" = false /\ copy_of_file "data" 1 = " - Copy." +:+ "data".
Proof.
  split; [reflexivity|].
  apply (copy_of_file_without_dot "data" 1). reflexivity.
Defined.

(** C1, as stated, fails for a name without a dot: with a workbook at
    ["data"] the probe settles on [" - Copy.data"], which is not ["data"]
    with [" - Copy"] put in anywhere. *)
Lemma probe_without_dot_not_inserted :
  (get_valid_file_name "data" (world_of {["data" := Workbook []]})).1
    = Ret " - Copy.data" /\
  ~ inserted " - Copy" "data" " - Copy.data".
Proof.
  split; [vm_compute; reflexivity|].
  intros (pre & post & H1 & H2).
  apply (f_equal String.length) in H1, H2.
  rewrite !length_app_s in *. simpl in *. lia.
Qed.

(** C1, amended to names with a dot: written without [overwrite], the
    program opens the target and then its copies in turn, where the
    first copy is the name with [" - Copy"] put in before the last dot
    and the [n]-th (from 2 on) has [" - Copy (n)"] there, each made from
    the original name; it stops at the first candidate that does not
    open as a workbook, which always exists, and that candidate is the
    path it hands to [pd.ExcelWriter]. *)
Theorem probe_inserts_copy_suffix
    (lib : pandas_writer)
    (b e : string) (dfs : odict) (index : bool) (index_label : string) (w : world) :
  PyStr.has_dot e = false ->
  let path := b +:+ "." +:+ e in
  candidate path 0 = path /\
  candidate path 1 = b +:+ " - Copy." +:+ e /\
  (forall n, 2 <= n ->
     candidate path n = b +:+ " - Copy (" +:+ PyStr.str n +:+ ")." +:+ e) /\
  (forall n, 1 <= n ->
     inserted (" - Copy" +:+ next_num n) path (candidate path n)) /\
  exists k,
    (forall j, j < k -> opens (fs w) (candidate path j) = true) /\
    opens (fs w) (candidate path k) = false /\
    get_valid_file_name path w = (Ret (candidate path k), after_calls w (probes path k)) /\
    write_to_xl lib path dfs index false index_label w =
      write_file lib (candidate path k) dfs index index_label
        (after_calls w (probes path k)).
Proof.
  intros He path.
  assert (forall n, copy_of_file path n = b +:+ " - Copy" +:+ next_num n +:+ "." +:+ e) as Hc.
  { intros n. unfold path.
    by rewrite copy_of_file_parts, base_name_dotted, extension_dotted. }
  split; [done|]. split; [apply Hc|]. split; [|split].
  - intros n Hn. destruct n as [|n]; [lia|]. cbn [candidate]. rewrite Hc.
    unfold next_num. rewrite decide_False by lia.
    by rewrite !app_assoc_s.
  - intros n Hn. destruct n as [|n]; [lia|]. cbn [candidate]. rewrite Hc.
    exists b, ("." +:+ e). split; [done|]. by rewrite !app_assoc_s.
  - destruct (get_valid_file_name_returns path w) as (k & _ & Hopen & Hstop & Hret).
    exists k. repeat split; try done.
    unfold write_to_xl, XL_WRITE_init. by apply write_probe_run.
Qed.

Lemma probe_inserts_copy_suffix_witness :
  PyStr.has_dot "xlsx" = false /\
  exists k,
    get_valid_file_name "X.xlsx"
      (world_of {["X.xlsx" := Workbook []; "X - Copy.xlsx" := Workbook []]})
    = (Ret (candidate "X.xlsx" k),
       after_calls (world_of {["X.xlsx" := Workbook []; "X - Copy.xlsx" := Workbook []]})
                   (probes "X.xlsx" k)).
Proof.
  split; [reflexivity|].
  destruct (probe_inserts_copy_suffix demo_writer "X" "xlsx" [] false EmptyString
              (world_of {["X.xlsx" := Workbook []; "X - Copy.xlsx" := Workbook []]})
              eq_refl) as (_ & _ & _ & _ & k & _ & _ & H & _).
  exists k. exact H.
Defined.

Example probe_three_in_a_row :
  (get_valid_file_name "X.xlsx"
     (world_of {["X.xlsx" := Workbook []; "X - Copy.xlsx" := Workbook []]})).1
  = Ret "X - Copy (2).xlsx".
Proof. vm_compute. reflexivity. Qed.

(** C7: while probing, a candidate that fails to open, be it absent or a
    file that is not a workbook, ends the loop: that candidate is
    returned, after each candidate up to it was opened once. *)
Theorem probe_stops_at_unopenable (path : string) (k : nat) (w : world) :
  (forall j, j < k -> opens (fs w) (candidate path j) = true) ->
  fs w !! candidate path k = None \/ fs w !! candidate path k = Some Malformed ->
  get_valid_file_name path w = (Ret (candidate path k), after_calls w (probes path k)) /\
  last (probes path k) = Some (Call_ExcelFile (candidate path k)) /\
  length (probes path k) = S k.
Proof.
  intros Hopen Hfail. apply opens_false in Hfail.
  split; [by apply get_valid_file_name_stops|].
  unfold probes. split.
  - rewrite seq_S, fmap_app. simpl. by rewrite last_snoc.
  - by rewrite length_fmap, length_seq.
Qed.

Lemma probe_stops_at_unopenable_witness :
  get_valid_file_name "X.xlsx"
    (world_of {["X.xlsx" := Workbook []; "X - Copy.xlsx" := Malformed]})
  = (Ret "X - Copy.xlsx",
     after_calls (world_of {["X.xlsx" := Workbook []; "X - Copy.xlsx" := Malformed]})
       [Call_ExcelFile "X.xlsx"; Call_ExcelFile "X - Copy.xlsx"]).
Proof.
  refine (proj1 (probe_stops_at_unopenable "X.xlsx" 1
                   (world_of {["X.xlsx" := Workbook []; "X - Copy.xlsx" := Malformed]}) _ _)).
  - intros j Hj. assert (j = 0) as -> by lia. vm_compute. reflexivity.
  - right. vm_compute. reflexivity.
Defined.

(* ================================================================== *)
(* ================================================================== *)
(** * Writing sheets *)
(* ================================================================== *)

Section WriteTheorems.

Variable lib : pandas_writer.
Variables (index : bool) (index_label : string).

Lemma all_attempts_length dfs : forall b,
  length dfs <= length (all_attempts lib index index_label b dfs) <= 2 * length dfs.
Proof.
  induction dfs as [|item dfs IH]; intros b; simpl; [lia|].
  rewrite length_app.
  pose proof (attempts_length lib index index_label b item).
  specialize (IH (add_sheet lib index index_label b item)). lia.
Qed.

Lemma attempts_head b item :
  item.1 ∈ attempts lib index index_label b item.
Proof. unfold attempts. destruct sheet_outcome; apply list_elem_of_here. Qed.

(** Every sheet is tried under its own name, whatever became of the
    sheets before it. *)
Lemma all_attempts_each dfs : forall b,
  Forall (fun item => item.1 ∈ all_attempts lib index index_label b dfs) dfs.
Proof.
  induction dfs as [|item dfs IH]; intros b; simpl; [constructor|].
  constructor.
  - apply elem_of_app. left. apply attempts_head.
  - eapply Forall_impl; [apply IH|]. intros x Hx. apply elem_of_app. right. exact Hx.
Qed.

(** What [write] comes to: the [with] block at the path itself, or at
    the first candidate that does not open. *)
Lemma write_run name dfs overwrite w :
  exists k,
    (forall j, j < k -> opens (fs w) (candidate name j) = true) /\
    opens (fs w) (candidate name k) = false /\
    write lib name dfs index index_label overwrite w =
    if overwrite
    then write_file_result lib name index index_label dfs w
    else write_file_result lib (candidate name k) index index_label dfs
           (after_calls w (probes name k)).
Proof.
  destruct (get_valid_file_name_returns name w) as (k & _ & Hopen & Hstop & _).
  exists k. split; [done|]. split; [done|]. destruct overwrite.
  - by rewrite write_overwrite_run, write_file_run.
  - by rewrite (write_probe_run lib index index_label name dfs k w Hopen Hstop),
         write_file_run.
Qed.

Lemma write_file_result_outcome fileName dfs w :
  (write_file_result lib fileName index index_label dfs w).1
    ∈ [Ret tt; Exc NoEngineError; Exc SaveError].
Proof.
  unfold write_file_result. destruct (has_engine lib fileName).
  - destruct (save lib _); cbn [fst].
    + apply list_elem_of_here.
    + do 2 apply list_elem_of_further. apply list_elem_of_here.
  - cbn [fst]. apply list_elem_of_further, list_elem_of_here.
Qed.

End WriteTheorems.

(** C4: a sheet is handed to [to_excel] under its full name; if that
    raises, once more under the first 31 characters of the name, on the
    workbook as the first call left it, and never again; if that raises
    too, a line is printed and the loop goes on with the next sheet.  So
    the loop never raises, every sheet of the collection gets its try, no
    sheet gets more than two, and [write] can only raise where pandas
    finds no engine for the destination or cannot save the workbook. *)
Theorem write_retries_once_and_continues
    (lib : pandas_writer)
    (name : string) (dfs : odict) (index : bool) (index_label : string)
    (overwrite : bool) (w : world) :
  (forall fileName (b : book lib) item w',
     write_sheet lib fileName index index_label b item w' =
     match to_excel lib b item.1 item.2 index index_label with
     | (true, b1) => (Ret b1, after_calls w' [Call_to_excel item.1])
     | (false, b1) =>
         match to_excel lib b1 (PyStr.prefix 31 item.1) item.2 index index_label with
         | (true, b2) =>
             (Ret b2,
              mkWorld (fs w')
                (stdout w' ++ [msg_failed fileName item.1; msg_trunked_done fileName item.1])
                (calls w' ++ [Call_to_excel item.1; Call_to_excel (PyStr.prefix 31 item.1)]))
         | (false, b2) =>
             (Ret b2,
              mkWorld (fs w')
                (stdout w' ++ [msg_failed fileName item.1; msg_trunked_failed fileName item.1])
                (calls w' ++ [Call_to_excel item.1; Call_to_excel (PyStr.prefix 31 item.1)]))
         end
     end) /\
  (forall s, String.length (PyStr.prefix 31 s) = min 31 (String.length s) /\
             exists rest, s = PyStr.prefix 31 s +:+ rest) /\
  (forall fileName (b : book lib) w',
     for_each dfs (write_sheet lib fileName index index_label) b w' =
     (Ret (book_after lib index index_label b dfs),
      mkWorld (fs w')
        (stdout w' ++ all_diagnostics lib fileName index index_label b dfs)
        (calls w' ++ (Call_to_excel <$> all_attempts lib index index_label b dfs)))) /\
  (forall b : book lib,
     Forall (fun item => item.1 ∈ all_attempts lib index index_label b dfs) dfs /\
     length dfs <= length (all_attempts lib index index_label b dfs) <= 2 * length dfs) /\
  (exists k,
     (forall j, j < k -> opens (fs w) (candidate name j) = true) /\
     opens (fs w) (candidate name k) = false /\
     write lib name dfs index index_label overwrite w =
     if overwrite
     then write_file_result lib name index index_label dfs w
     else write_file_result lib (candidate name k) index index_label dfs
            (after_calls w (probes name k))) /\
  (write lib name dfs index index_label overwrite w).1
    ∈ [Ret tt; Exc NoEngineError; Exc SaveError].
Proof.
  split; [|split; [|split; [|split; [|split]]]].
  - intros fileName b item w'. rewrite write_sheet_run.
    unfold add_sheet, diagnostics, attempts, sheet_outcome, after_calls.
    destruct (to_excel lib b item.1 item.2 index index_label) as [[|] b1]; cbn [fmap list_fmap].
    + by rewrite app_nil_r.
    + by destruct (to_excel lib b1 (PyStr.prefix 31 item.1) item.2 index index_label)
        as [[|] b2].
  - intros s. split; [apply prefix_length|apply prefix_app].
  - intros fileName b w'. apply write_sheets_run.
  - intros b. split; [apply all_attempts_each|apply all_attempts_length].
  - apply write_run.
  - destruct (write_run lib index index_label name dfs overwrite w) as (k & _ & _ & ->).
    destruct overwrite; apply write_file_result_outcome.
Qed.

Lemma write_retries_once_and_continues_witness :
  let dfs := [("an_unreasonably_long_sheet_name_of_43_chars", mkDF ["x"] [[Int 1]]);
              ("bad/name", mkDF ["y"] [[Int 2]]);
              ("ok", mkDF ["z"] [[Int 3]])] in
  write demo_writer "out.xlsx" dfs false EmptyString true (world_of ∅) =
  write_file_result demo_writer "out.xlsx" false EmptyString dfs (world_of ∅).
Proof.
  intros dfs.
  destruct (write_retries_once_and_continues demo_writer "out.xlsx" dfs false
              EmptyString true (world_of ∅)) as (_ & _ & _ & _ & (k & _ & _ & H) & _).
  exact H.
Defined.

Example write_long_and_bad_names :
  let r := write demo_writer "out.xlsx"
     [("an_unreasonably_long_sheet_name_of_43_chars", mkDF ["x"] [[Int 1]]);
      ("bad/name", mkDF ["y"] [[Int 2]]);
      ("ok", mkDF ["z"] [[Int 3]])]
     false EmptyString true (world_of ∅) in
  r.1 = Ret tt /\
  fs r.2 !! "out.xlsx" =
    Some (Workbook [("an_unreasonably_long_sheet_name", mkDF ["x"] [[Int 1]]);
                    ("ok", mkDF ["z"] [[Int 3]])]) /\
  stdout r.2 =
    ["writing data for out.xlsx sheet an_unreasonably_long_sheet_name_of_43_chars ...failed!!!, length of sheet name = 43";
     "instead data for out.xlsx sheet an_unreasonably_long_sheet_name - trunked ...done!";
     "writing data for out.xlsx sheet bad/name ...failed!!!, length of sheet name = 8";
     "writing data for out.xlsx sheet bad/name - trunked ...failed!!!"] /\
  calls r.2 =
    [Call_to_excel "an_unreasonably_long_sheet_name_of_43_chars";
     Call_to_excel "an_unreasonably_long_sheet_name";
     Call_to_excel "bad/name"; Call_to_excel "bad/name";
     Call_to_excel "ok"].
Proof. vm_compute. repeat split. Qed.

Example write_nothing_cannot_be_saved :
  write demo_writer "out.xlsx" [] false EmptyString true (world_of ∅)
  = (Exc SaveError, world_of {["out.xlsx" := Malformed]}).
Proof. vm_compute. reflexivity. Qed.

Example write_without_engine :
  write demo_writer "x.data" [("ok", mkDF ["z"] [[Int 3]])] false EmptyString true
        (world_of ∅)
  = (Exc NoEngineError, world_of ∅).
Proof. vm_compute. reflexivity. Qed.

(** C6: with [overwrite] the destination is the very path given: no
    other path changes and pandas is asked to open nothing.  Where pandas
    has no engine for the path nothing is written at all; otherwise what
    is left at the path is the workbook as saved, or no workbook when it
    cannot be saved.  Doing it again ends the same way and leaves the
    same files. *)
Theorem overwrite_writes_in_place
    (lib : pandas_writer)
    (name : string) (dfs : odict) (index : bool) (index_label : string) (w : world) :
  let r1 := write_to_xl lib name dfs index true index_label w in
  let r2 := write_to_xl lib name dfs index true index_label r1.2 in
  (forall p, p <> name -> fs r1.2 !! p = fs w !! p) /\
  (exists tried, calls r1.2 = calls w ++ (Call_to_excel <$> tried)) /\
  (has_engine lib name = false -> r1 = (Exc NoEngineError, w)) /\
  (has_engine lib name = true ->
   r1.1 = (match save lib (book_after lib index index_label (new_book lib) dfs) with
           | Some _ => Ret tt
           | None => Exc SaveError
           end) /\
   fs r1.2 !! name =
     Some (match save lib (book_after lib index index_label (new_book lib) dfs) with
           | Some sheets => Workbook sheets
           | None => Malformed
           end)) /\
  r2.1 = r1.1 /\
  fs r2.2 = fs r1.2.
Proof.
  unfold write_to_xl, XL_WRITE_init. cbn zeta.
  rewrite !write_overwrite_run, !write_file_run. unfold write_file_result.
  destruct (has_engine lib name) eqn:He.
  - destruct (save lib (book_after lib index index_label (new_book lib) dfs))
      as [sheets|] eqn:Hs; cbn [fst snd fs calls].
    + split; [intros p Hp; by rewrite lookup_insert_ne|].
      split; [by eexists|]. split; [done|].
      split; [intros _; by rewrite lookup_insert_eq|].
      split; [done|]. by rewrite insert_insert_eq.
    + split; [intros p Hp; by rewrite lookup_insert_ne|].
      split; [by eexists|]. split; [done|].
      split; [intros _; by rewrite lookup_insert_eq|].
      split; [done|]. by rewrite insert_insert_eq.
  - cbn [fst snd]. split; [done|]. split; [exists []; simpl; by rewrite app_nil_r|].
    split; [done|]. split; [done|]. done.
Qed.

Lemma overwrite_writes_in_place_witness :
  let t := mkDF ["x"] [[Int 1]] in
  let w := world_of {["X.xlsx" := Workbook [("old", t)]]} in
  fs (write_to_xl demo_writer "X.xlsx" [("new", t)] false true EmptyString w).2 !! "X.xlsx"
  = Some (Workbook [("new", t)]).
Proof.
  intros t w.
  destruct (overwrite_writes_in_place demo_writer "X.xlsx" [("new", t)] false
              EmptyString w) as (_ & _ & _ & H & _).
  destruct (H eq_refl) as [_ Hfile]. exact Hfile.
Defined.

(* ================================================================== *)
(** * The sheet collection of a reader *)
(* ================================================================== *)

(** C3: the code does not do what the claim says.  Asked for one sheet
    of a workbook that has it, [read_sheets] raises [UnboundLocalError]
    and loads nothing. *)
Theorem read_sheets_named_sheet_raises :
  let w := world_of {["book.xlsx" := Workbook [("Sheet1", mkDF ["x"] [[Int 1]])]]} in
  (let* xlrd := XL_READ_init "book.xlsx" (Some "Sheet1") in read_sheets xlrd) w
  = (Exc UnboundLocalError, after_calls w [Call_ExcelFile "book.xlsx"]).
Proof. vm_compute. reflexivity. Qed.

(** C9: item assignment, iteration and [read_sheets] keep the sheet
    names of a collection unique and in insertion order: assigning under
    a name already there replaces the table where the name stands,
    assigning under a new name adds it last, iteration yields the pairs
    in that order, and loading adds the workbook's sheets in the order of
    its sheet names. *)
Theorem collection_invariant (self : XL_READ) :
  NoDup (od_keys (df_dict self)) ->
  sheet_names self = od_keys (xl self) ->
  (forall key value,
     let self' := XL_READ_setitem self key value in
     NoDup (od_keys (df_dict self')) /\
     od_keys (df_dict self') = key_added (od_keys (df_dict self)) key /\
     (forall i k, od_keys (df_dict self) !! i = Some k ->
                  od_keys (df_dict self') !! i = Some k) /\
     od_get key (df_dict self') = Some value /\
     (forall k, k <> key -> od_get k (df_dict self') = od_get k (df_dict self))) /\
  (XL_READ_iter self = df_dict self /\
   NoDup (XL_READ_iter self).*1 /\
   XL_READ_len self = length (XL_READ_iter self)) /\
  (forall w, exists r,
     read_sheets self w = (r, w) /\
     match r with
     | Ret self' =>
         truthy (sheet_name self) = false /\
         NoDup (od_keys (df_dict self')) /\
         od_keys (df_dict self') =
           foldl key_added (od_keys (df_dict self)) (sheet_names self) /\
         od_keys (df_dict self) `prefix_of` od_keys (df_dict self') /\
         (forall k, k ∈ sheet_names self ->
                    od_get k (df_dict self') = od_get k (xl self))
     | Exc e => truthy (sheet_name self) = true /\ e = UnboundLocalError
     | OutOfFuel => False
     end).
Proof.
  intros Hnd Hnames. split; [|split].
  - intros key value self'. unfold self', XL_READ_setitem. simpl.
    split; [by apply od_set_NoDup|]. split; [apply od_keys_set|].
    split; [intros i k; apply od_set_position|].
    split; [apply od_get_set_eq|]. intros k Hk. by apply od_get_set_ne.
  - done.
  - intros w. destruct (truthy (sheet_name self)) eqn:Ht.
    + exists (Exc UnboundLocalError). by rewrite read_sheets_named.
    + eexists. rewrite read_sheets_all by done. split; [reflexivity|]. simpl.
      unfold loaded. rewrite <- Hnames.
      split; [done|]. split; [by apply loaded_fold_NoDup|].
      rewrite loaded_fold_keys.
      split; [done|]. split; [apply foldl_key_added_prefix|].
      intros k Hk. apply loaded_fold_get; [done|]. by rewrite <- Hnames.
Qed.

Lemma collection_invariant_witness :
  let t1 := mkDF ["x"] [[Int 1]] in
  let t2 := mkDF ["x"] [[Int 2]] in
  let self := mkXL_READ [("B", t1)] None [("A", t1); ("B", t2)] ["A"; "B"] in
  od_keys (df_dict (XL_READ_setitem self "B" t2)) = ["B"] /\
  od_keys (df_dict (XL_READ_setitem self "C" t2)) = ["B"; "C"].
Proof.
  intros t1 t2 self.
  assert (NoDup (od_keys (df_dict self))) as Hnd.
  { apply NoDup_singleton. }
  destruct (collection_invariant self Hnd eq_refl) as (Hset & _ & _).
  split.
  - destruct (Hset "B" t2) as (_ & -> & _). reflexivity.
  - destruct (Hset "C" t2) as (_ & -> & _). reflexivity.
Defined.

Example read_sheets_keeps_positions :
  let t1 := mkDF ["x"] [[Int 1]] in
  let t2 := mkDF ["x"] [[Int 2]] in
  (read_sheets (mkXL_READ [("B", t1)] None [("A", t1); ("B", t2)] ["A"; "B"])
     (world_of ∅)).1
  = Ret (mkXL_READ [("B", t2); ("A", t1)] None [("A", t1); ("B", t2)] ["A"; "B"]).
Proof. vm_compute. reflexivity. Qed.

Lemma foldl_key_added_elem names k : forall keys,
  k ∈ foldl key_added keys names -> k ∈ keys \/ k ∈ names.
Proof.
  induction names as [|k' names IH]; intros keys Hk; simpl in *; [by left|].
  apply IH in Hk as [Hk|Hk].
  - unfold key_added in Hk. destruct (decide (k' ∈ keys)); [by left|].
    apply elem_of_app in Hk as [?|Hk]; [by left|].
    apply list_elem_of_singleton in Hk as ->. right. apply list_elem_of_here.
  - right. by apply list_elem_of_further.
Qed.

(** What is loaded answers lookups as the workbook does. *)
Lemma od_get_loaded sheets k : od_get k (loaded sheets []) = od_get k sheets.
Proof.
  destruct (decide (k ∈ od_keys sheets)) as [Hin|Hnin].
  - unfold loaded. by apply loaded_fold_get.
  - apply od_get_None in Hnin as Hn. rewrite Hn. apply od_get_None.
    unfold loaded. rewrite loaded_fold_keys. intros Hk.
    apply foldl_key_added_elem in Hk as [Hk|Hk]; [|done].
    by apply elem_of_nil in Hk.
Qed.

Lemma loaded_NoDup sheets : NoDup (od_keys (loaded sheets [])).
Proof. unfold loaded. apply loaded_fold_NoDup. apply NoDup_nil_2. Qed.

(* ================================================================== *)
(** * Writing a collection and reading it back *)
(* ================================================================== *)




(* ================================================================== *)
(** * Appending *)
(* ================================================================== *)

Section Append.

Variable lib : pandas_writer.

(** Reading what is there never fails in [append_to_xl]. *)
Lemma read_previous_run path w :
  try_except (let* xlrd := read_xl path in ret (df_dict xlrd)) (ret []) w =
  (Ret (loaded (existing_sheets (fs w) path) []), after_calls w [Call_ExcelFile path]).
Proof.
  unfold try_except, bind at 1, existing_sheets.
  destruct (fs w !! path) as [[sheets|]|] eqn:E.
  - by rewrite (read_xl_run path sheets w E).
  - rewrite read_xl_fails; [done|]. apply opens_false. by right.
  - rewrite read_xl_fails; [done|]. apply opens_false. by left.
Qed.

(** Removing the target never fails there either. *)
Lemma remove_target_run path w :
  try_except (os_remove path) (ret tt) w =
  (Ret tt, mkWorld (delete path (fs w)) (stdout w) (calls w)).
Proof.
  unfold try_except, os_remove, ret.
  destruct (fs w !! path) eqn:E; [done|].
  rewrite delete_id by done. by destruct w.
Qed.

(** [append_to_xl] is [write_to_xl] of the merged collection, after the
    read and, with [overwrite], the removal. *)
Lemma append_run path dfs overwrite index_label w :
  append_to_xl lib path dfs overwrite index_label w =
  write_to_xl lib path (od_update (loaded (existing_sheets (fs w) path) []) dfs)
    false overwrite index_label
    (mkWorld (if overwrite then delete path (fs w) else fs w) (stdout w)
             (calls w ++ [Call_ExcelFile path])).
Proof.
  unfold append_to_xl. unfold bind at 1. rewrite read_previous_run.
  unfold bind at 1. destruct overwrite.
  - by rewrite remove_target_run.
  - reflexivity.
Qed.

End Append.

(** C5: [append_to_xl] takes the sheets stored at the path (none when
    the path is absent or does not open), lets each new table replace the
    one of the same name and keeps every other one as it was and where it
    was, and hands the whole merged collection to [write_to_xl]: for the
    path itself with [overwrite], after removing what is there, else for
    the first candidate that does not open.  A failure to open or to
    remove never reaches the caller; what can is the writer finding no
    engine or not saving the workbook. *)
Theorem append_merges_and_rewrites
    (lib : pandas_writer)
    (path : string) (dfs : odict) (overwrite : bool) (index_label : string) (w : world) :
  NoDup (od_keys dfs) ->
  let existing := existing_sheets (fs w) path in
  let merged := od_update (loaded existing []) dfs in
  let w1 := mkWorld (if overwrite then delete path (fs w) else fs w) (stdout w)
                    (calls w ++ [Call_ExcelFile path]) in
  let saved := save lib (book_after lib false index_label (new_book lib) merged) in
  let r := append_to_xl lib path dfs overwrite index_label w in
  (forall k v, od_get k dfs = Some v -> od_get k merged = Some v) /\
  (forall k, k ∉ od_keys dfs -> od_get k merged = od_get k existing) /\
  NoDup (od_keys merged) /\
  od_keys merged = foldl key_added (od_keys (loaded existing [])) (od_keys dfs) /\
  (opens (fs w) path = false -> existing = [] /\ merged = dfs) /\
  r = write_to_xl lib path merged false overwrite index_label w1 /\
  r.1 ∈ [Ret tt; Exc NoEngineError; Exc SaveError] /\
  exists dest,
    (overwrite = true -> dest = path) /\
    (overwrite = false -> exists k, dest = candidate path k /\
        (forall j, j < k -> opens (fs w) (candidate path j) = true) /\
        opens (fs w) dest = false) /\
    (forall p, p <> dest -> fs r.2 !! p = fs w1 !! p) /\
    (has_engine lib dest = false -> r.1 = Exc NoEngineError /\ fs r.2 = fs w1) /\
    (has_engine lib dest = true ->
     r.1 = (match saved with Some _ => Ret tt | None => Exc SaveError end) /\
     fs r.2 !! dest =
       Some (match saved with Some sheets => Workbook sheets | None => Malformed end)).
Proof.
  intros Hnd existing merged w1 saved r.
  assert (NoDup (od_keys merged)) as Hmerged.
  { apply od_update_NoDup, loaded_NoDup. }
  split; [intros k v Hk; by apply od_get_update_new|].
  split; [intros k Hk; unfold merged; rewrite od_get_update_kept by done;
          apply od_get_loaded|].
  split; [done|]. split; [apply od_keys_update|].
  split.
  { intros Hclosed. assert (existing = []) as Hex.
    { unfold existing, existing_sheets.
      apply opens_false in Hclosed as [-> | ->]; done. }
    split; [done|]. unfold merged. rewrite Hex. unfold loaded. simpl.
    apply od_update_fresh. by rewrite app_nil_l. }
  assert (r = write_to_xl lib path merged false overwrite index_label w1) as Hr
    by apply append_run.
  split; [exact Hr|]. rewrite Hr. unfold write_to_xl, XL_WRITE_init.
  assert (forall dest w0,
            fs w0 = fs w1 ->
            (write_file_result lib dest false index_label merged w0).1
              ∈ [Ret tt; Exc NoEngineError; Exc SaveError] /\
            (forall p, p <> dest ->
               fs (write_file_result lib dest false index_label merged w0).2 !! p
                 = fs w1 !! p) /\
            (has_engine lib dest = false ->
               (write_file_result lib dest false index_label merged w0).1
                 = Exc NoEngineError /\
               fs (write_file_result lib dest false index_label merged w0).2 = fs w1) /\
            (has_engine lib dest = true ->
               (write_file_result lib dest false index_label merged w0).1
                 = (match saved with Some _ => Ret tt | None => Exc SaveError end) /\
               fs (write_file_result lib dest false index_label merged w0).2 !! dest
                 = Some (match saved with
                         | Some sheets => Workbook sheets
                         | None => Malformed
                         end))) as Hfile.
  { intros dest w0 Hw0. split; [apply write_file_result_outcome|].
    unfold write_file_result. fold saved.
    destruct (has_engine lib dest); [|by rewrite <- Hw0].
    destruct saved as [sheets|]; cbn [fst snd fs]; rewrite Hw0.
    - split; [intros p Hp; by rewrite lookup_insert_ne|]. split; [done|].
      intros _. by rewrite lookup_insert_eq.
    - split; [intros p Hp; by rewrite lookup_insert_ne|]. split; [done|].
      intros _. by rewrite lookup_insert_eq. }
  destruct overwrite.
  - rewrite write_overwrite_run, write_file_run.
    destruct (Hfile path w1 eq_refl) as (Hout & Hother & Hno & Hyes).
    split; [exact Hout|]. exists path.
    split; [done|]. split; [done|]. split; [exact Hother|]. split; [exact Hno|exact Hyes].
  - destruct (get_valid_file_name_returns path w1) as (k & _ & Hopen & Hstop & _).
    rewrite (write_probe_run lib false index_label path merged k w1 Hopen Hstop).
    rewrite write_file_run.
    destruct (Hfile (candidate path k) (after_calls w1 (probes path k)) eq_refl)
      as (Hout & Hother & Hno & Hyes).
    split; [exact Hout|]. exists (candidate path k).
    split; [done|]. split; [intros _; by exists k|].
    split; [exact Hother|]. split; [exact Hno|exact Hyes].
Qed.

Lemma append_merges_and_rewrites_witness :
  let t1 := mkDF ["x"] [[Int 1]] in
  let t2 := mkDF ["x"] [[Int 2]] in
  let w := world_of {["db.xlsx" := Workbook [("A", t1); ("B", t1)]]} in
  fs (append_to_xl demo_writer "db.xlsx" [("B", t2)] true EmptyString w).2 !! "db.xlsx"
  = Some (Workbook [("A", t1); ("B", t2)]).
Proof.
  intros t1 t2 w.
  assert (NoDup (od_keys [("B", t2)])) as Hnd by apply NoDup_singleton.
  destruct (append_merges_and_rewrites demo_writer "db.xlsx" [("B", t2)] true
              EmptyString w Hnd)
    as (_ & _ & _ & _ & _ & _ & _ & dest & Hdest & _ & _ & _ & Hfile).
  rewrite (Hdest eq_refl) in Hfile. destruct (Hfile eq_refl) as [_ H]. exact H.
Defined.

Example append_to_missing_file :
  let t2 := mkDF ["x"] [[Int 2]] in
  append_to_xl demo_writer "new.xlsx" [("B", t2)] true EmptyString (world_of ∅)
  = (Ret tt, mkWorld {["new.xlsx" := Workbook [("B", t2)]]} []
               [Call_ExcelFile "new.xlsx"; Call_to_excel "B"]).
Proof. vm_compute. reflexivity. Qed.

Example append_without_overwrite :
  let t1 := mkDF ["x"] [[Int 1]] in
  let t2 := mkDF ["x"] [[Int 2]] in
  let w := world_of {["db.xlsx" := Workbook [("A", t1); ("B", t1)]]} in
  let w' := (append_to_xl demo_writer "db.xlsx" [("B", t2)] false EmptyString w).2 in
  fs w' !! "db.xlsx" = Some (Workbook [("A", t1); ("B", t1)]) /\
  fs w' !! "db - Copy.xlsx" = Some (Workbook [("A", t1); ("B", t2)]).
Proof. vm_compute. split; reflexivity. Qed.

Example append_nothing_to_missing_file :
  append_to_xl demo_writer "new.xlsx" [] true EmptyString (world_of ∅)
  = (Exc SaveError, mkWorld {["new.xlsx" := Malformed]} [] [Call_ExcelFile "new.xlsx"]).
Proof. vm_compute. reflexivity. Qed.

(* ================================================================== *)
(** * Merging the sheets of a file *)
(* ================================================================== *)

Section Merge.

Lemma col_index_Some c cols j :
  col_index c cols = Some j -> cols !! j = Some c.
Proof.
  unfold col_index. destruct (list_find (eq c) cols) as [[j' x]|] eqn:E; [|done].
  simpl. intros [= <-]. apply list_find_Some in E as (H & -> & _). done.
Qed.

Lemma col_index_elem c cols : c ∈ cols -> is_Some (col_index c cols).
Proof.
  intros H. unfold col_index.
  destruct (list_find_elem_of (eq c) cols c H eq_refl) as [[j x] ->]. by eexists.
Qed.

Lemma col_index_None c cols : c ∉ cols -> col_index c cols = None.
Proof.
  intros H. unfold col_index.
  destruct (list_find (eq c) cols) as [[j x]|] eqn:E; [|done].
  apply list_find_Some in E as (Hl & -> & _).
  exfalso. apply H. by eapply list_elem_of_lookup_2.
Qed.

Lemma reindex_lookup new_cols old_cols row j c :
  new_cols !! j = Some c ->
  reindex new_cols old_cols row !! j =
  Some (match col_index c old_cols with
        | Some i => default NaN (row !! i)
        | None => NaN
        end).
Proof.
  intros H. unfold reindex.
  change (map ?f ?l) with (f <$> l). by rewrite list_lookup_fmap, H.
Qed.

Lemma concat_empty_columns df : columns (concat df empty_DataFrame) = columns df.
Proof. unfold concat. simpl. apply app_nil_r. Qed.

(** The merge of a workbook of two sheets: the second sheet's rows come
    first. *)
Lemma get_merged_two_sheets path nameA nameB A B w :
  fs w !! path = Some (Workbook [(nameA, A); (nameB, B)]) ->
  nameA <> nameB ->
  get_merged_DataFrame_of_file path w =
  (Ret (concat (fillna EmptyString B) (concat (fillna EmptyString A) empty_DataFrame)),
   after_calls w [Call_ExcelFile path]).
Proof.
  intros Hfile Hne. unfold get_merged_DataFrame_of_file, bind.
  rewrite (read_xl_run path _ w Hfile).
  rewrite loaded_unique; [done|].
  simpl. apply NoDup_cons. split; [|apply NoDup_singleton].
  intros H. apply list_elem_of_singleton in H. done.
Qed.

End Merge.

(** C2, as stated, fails: with sheet A of column x and sheet B of column
    y, the merged table has A's row under y missing, not empty. *)
Lemma merge_does_not_fill_foreign_column :
  let w := world_of {["book.xlsx" :=
             Workbook [("A", mkDF ["x"] [[Int 1]]); ("B", mkDF ["y"] [[Int 2]])]]} in
  exists merged,
    (get_merged_DataFrame_of_file "book.xlsx" w).1 = Ret merged /\
    merged = mkDF ["y"; "x"] [[Int 2; NaN]; [NaN; Int 1]] /\
    cell_at merged 1 "y" = Some NaN /\
    cell_at merged 1 "y" <> Some (Str EmptyString).
Proof.
  eexists. split; [vm_compute; reflexivity|].
  split; [reflexivity|]. split; [vm_compute; reflexivity|].
  vm_compute. discriminate.
Qed.

(** C2, amended: merging a workbook of two sheets, where the second has
    a column [y] that the first lacks, gives a table with the second
    sheet's rows first and the first sheet's rows after them, and every
    cell of the first sheet's rows under [y] is the missing value: the
    empty string is filled in sheet by sheet before the tables are put
    together.  Under a column of its own a row of the first sheet, when
    as long as the sheet has columns, has a value that is not missing. *)
Theorem merge_leaves_foreign_column_missing
    (path nameA nameB : string) (A B : DataFrame) (y : string) (i : nat) (w : world) :
  fs w !! path = Some (Workbook [(nameA, A); (nameB, B)]) ->
  nameA <> nameB ->
  y ∉ columns A ->
  y ∈ columns B ->
  i < length (rows A) ->
  exists merged w',
    get_merged_DataFrame_of_file path w = (Ret merged, w') /\
    length (rows merged) = length (rows B) + length (rows A) /\
    cell_at merged (length (rows B) + i) y = Some NaN /\
    (forall x row,
       x ∈ columns A -> rows A !! i = Some row -> length row = length (columns A) ->
       exists c, cell_at merged (length (rows B) + i) x = Some c /\ c <> NaN).
Proof.
  intros Hfile Hne HyA HyB Hi.
  eexists _, _. split; [by apply (get_merged_two_sheets path nameA nameB)|].
  set (A1 := concat (fillna EmptyString A) empty_DataFrame).
  assert (columns A1 = columns A) as HcolsA1
    by exact (concat_empty_columns (fillna EmptyString A)).
  set (colsM := columns (concat (fillna EmptyString B) A1)).
  assert (colsM = columns B ++ list_difference (columns A1) (columns B)) as HcolsM by done.
  destruct (lookup_lt_is_Some_2 (rows A) i Hi) as [rowA HrowA].
  set (fill := map (fun c => match c with NaN => Str EmptyString | _ => c end)).
  assert (rows A1 !! i = Some (reindex (columns A1) (columns A) (fill rowA))) as HrowA1.
  { unfold A1, concat. simpl. rewrite app_nil_r.
    change (map ?f ?l) with (f <$> l) at 1. rewrite !list_lookup_fmap, HrowA.
    simpl. by rewrite app_nil_r. }
  assert (rows (concat (fillna EmptyString B) A1) !! (length (rows B) + i)
          = Some (reindex colsM (columns A1)
                    (reindex (columns A1) (columns A) (fill rowA)))) as Hrow.
  { unfold concat at 1. cbn [rows]. rewrite lookup_app_r.
    - rewrite length_map. cbn [fillna rows]. rewrite length_map.
      replace (length (rows B) + i - length (rows B)) with i by lia.
      change (map ?f (rows A1)) with (f <$> rows A1).
      by rewrite list_lookup_fmap, HrowA1.
    - rewrite length_map. cbn [fillna rows]. rewrite length_map. lia. }
  split; [|split].
  - unfold concat at 1. cbn [rows]. rewrite length_app, !length_map.
    cbn [fillna rows]. rewrite length_map. f_equal.
    unfold A1, concat. simpl. by rewrite app_nil_r, !length_map.
  - unfold cell_at. rewrite Hrow. fold colsM.
    assert (y ∈ colsM) as HyM by (rewrite HcolsM; apply elem_of_app; by left).
    destruct (col_index_elem y colsM HyM) as [j Hj]. rewrite Hj.
    rewrite (reindex_lookup _ _ _ j y) by (by apply col_index_Some).
    rewrite col_index_None; [done|]. by rewrite HcolsA1.
  - intros x row HxA Hrow' Hlen. rewrite HrowA in Hrow'. injection Hrow' as <-.
    unfold cell_at. rewrite Hrow. fold colsM.
    assert (x ∈ colsM) as HxM.
    { rewrite HcolsM. apply elem_of_app.
      destruct (decide (x ∈ columns B)); [by left|right].
      apply list_elem_of_difference. by rewrite HcolsA1. }
    destruct (col_index_elem x colsM HxM) as [j Hj]. rewrite Hj.
    rewrite (reindex_lookup _ _ _ j x) by (by apply col_index_Some).
    assert (x ∈ columns A1) as HxA1 by (by rewrite HcolsA1).
    destruct (col_index_elem x (columns A1) HxA1) as [i1 Hi1]. rewrite Hi1.
    rewrite (reindex_lookup _ _ _ i1 x) by (by apply col_index_Some).
    destruct (col_index_elem x (columns A) HxA) as [i2 Hi2]. rewrite Hi2.
    apply col_index_Some, lookup_lt_Some in Hi2.
    destruct (lookup_lt_is_Some_2 rowA i2 ltac:(lia)) as [c Hc].
    unfold fill. change (map ?f rowA) with (f <$> rowA).
    rewrite list_lookup_fmap, Hc. simpl.
    eexists. split; [reflexivity|]. by destruct c.
Qed.

Lemma merge_leaves_foreign_column_missing_witness :
  let A := mkDF ["x"] [[Int 1]; [NaN]] in
  let B := mkDF ["y"] [[Int 2]] in
  let w := world_of {["book.xlsx" := Workbook [("A", A); ("B", B)]]} in
  exists merged w',
    get_merged_DataFrame_of_file "book.xlsx" w = (Ret merged, w') /\
    cell_at merged (1 + 1) "y" = Some NaN.
Proof.
  intros A B w.
  assert ("y" ∉ columns A) as HyA.
  { intros H. apply list_elem_of_singleton in H. discriminate H. }
  assert ("y" ∈ columns B) as HyB by apply list_elem_of_here.
  assert ("A" <> "B") as Hne by discriminate.
  assert (1 < length (rows A)) as Hi by (simpl; lia).
  destruct (merge_leaves_foreign_column_missing "book.xlsx" "A" "B" A B "y" 1 w
              eq_refl Hne HyA HyB Hi) as (merged & w' & Hrun & _ & Hcell & _).
  exists merged, w'. split; [exact Hrun|exact Hcell].
Defined.

Example merge_fills_within_a_sheet :
  let A := mkDF ["x"] [[Int 1]; [NaN]] in
  let B := mkDF ["y"] [[Int 2]] in
  (get_merged_DataFrame_of_file "book.xlsx"
     (world_of {["book.xlsx" := Workbook [("A", A); ("B", B)]]})).1
  = Ret (mkDF ["y"; "x"] [[Int 2; NaN]; [NaN; Int 1]; [NaN; Str EmptyString]]).
Proof. vm_compute. reflexivity. Qed.

(* ================================================================== *)
(** * Further properties: copy names *)
(* ================================================================== *)

Section CopyNames.

Lemma split_dot_segments s :
  Forall (fun seg => PyStr.has_dot seg = false) (PyStr.split_dot s).
Proof.
  induction s as [|c s IH]; simpl.
  - by repeat constructor.
  - destruct (Ascii.eqb c ".") eqn:E.
    + by constructor.
    + destruct (PyStr.split_dot s) as [|seg rest].
      { constructor; [|constructor]. simpl. by rewrite E. }
      apply Forall_cons in IH as [Hseg Hrest].
      constructor; [|done]. simpl. by rewrite E.
Qed.

(** The extension never has a dot in it. *)
Lemma extension_dot_free path : PyStr.has_dot (extension path) = false.
Proof.
  unfold extension, PyStr.last_seg.
  pose proof (split_dot_segments path) as H.
  induction (PyStr.split_dot path) as [|seg rest IH]; [done|].
  apply Forall_cons in H as [Hseg Hrest].
  destruct rest as [|seg' rest]; [done|]. by apply IH.
Qed.

Lemma copy_of_file_shape path n :
  copy_of_file path n =
  (base_name path +:+ " - Copy" +:+ next_num n) +:+ "." +:+ extension path.
Proof. by rewrite copy_of_file_parts, !app_assoc_s. Qed.

End CopyNames.

(** X1: the copy of a name keeps the name's extension, whatever the name
    and the number; its base is the name's base followed by the copy
    suffix. *)
Theorem copy_of_file_keeps_extension (path : string) (n : nat) :
  extension (copy_of_file path n) = extension path /\
  base_name (copy_of_file path n) = base_name path +:+ " - Copy" +:+ next_num n.
Proof.
  rewrite copy_of_file_shape. split.
  - apply extension_dotted, extension_dot_free.
  - apply base_name_dotted, extension_dot_free.
Qed.

(** X2: copies of one name with different numbers are different names,
    and none of them is the name itself. *)
Theorem copy_names_distinct (path : string) (n m : nat) :
  n <> m ->
  copy_of_file path n <> copy_of_file path m /\
  copy_of_file path n <> path.
Proof.
  intros Hnm. split.
  - intros H. by apply copy_of_file_inj in H.
  - intros H. pose proof (length_copy_of_file path n) as Hlt.
    rewrite H in Hlt. lia.
Qed.

Lemma copy_names_distinct_witness :
  copy_of_file "a.b.xlsx" 1 <> copy_of_file "a.b.xlsx" 2 /\
  copy_of_file "a.b.xlsx" 1 <> "a.b.xlsx".
Proof. apply (copy_names_distinct "a.b.xlsx" 1 2). lia. Defined.

(* ================================================================== *)
(** * Further properties: the probe and the safe write *)
(* ================================================================== *)

(** X3: the probe always ends, on a path that does not open as a
    workbook; it changes no file, prints nothing, and opens at most one
    path more than there are files. *)
Theorem probe_finds_free_path (path : string) (w : world) :
  exists dest w',
    get_valid_file_name path w = (Ret dest, w') /\
    opens (fs w) dest = false /\
    fs w' = fs w /\
    stdout w' = stdout w /\
    length (calls w') <= length (calls w) + S (size (fs w)).
Proof.
  destruct (get_valid_file_name_returns path w) as (k & Hk & _ & Hstop & Hret).
  eexists _, _. split; [exact Hret|]. split; [done|]. split; [done|]. split; [done|].
  unfold after_calls. cbn [calls]. rewrite length_app.
  unfold probes. rewrite length_fmap, length_seq. lia.
Qed.

Section SafeWrite.

Variable lib : pandas_writer.
Variables (index : bool) (index_label : string).

Lemma opens_insert_workbook (files : gmap string file) dest sheets p :
  opens (<[dest := Workbook sheets]> files) p =
  if decide (dest = p) then true else opens files p.
Proof.
  unfold opens. rewrite lookup_insert. by destruct (decide (dest = p)).
Qed.

(** When the [with] block is left normally, its path holds a workbook. *)
Lemma write_file_result_opens fileName dfs w :
  (write_file_result lib fileName index index_label dfs w).1 = Ret tt ->
  opens (fs (write_file_result lib fileName index index_label dfs w).2) fileName = true.
Proof.
  unfold write_file_result. destruct (has_engine lib fileName); [|done].
  destruct (save lib _); [|done]. cbn [fst snd fs]. intros _.
  rewrite opens_insert_workbook. by rewrite decide_True.
Qed.

End SafeWrite.

(** X4: written without [overwrite], the collection goes to a path that
    did not open as a workbook before; every other path, so every
    workbook that was there, is left as it was, whether the write returns
    or raises; and when it returns, the path opens as a workbook. *)
Theorem write_keeps_existing_workbooks
    (lib : pandas_writer)
    (name : string) (dfs : odict) (index : bool) (index_label : string) (w : world) :
  let r := write_to_xl lib name dfs index false index_label w in
  exists dest,
    opens (fs w) dest = false /\
    (forall p, p <> dest -> fs r.2 !! p = fs w !! p) /\
    (forall p, opens (fs w) p = true -> fs r.2 !! p = fs w !! p) /\
    (r.1 = Ret tt -> opens (fs r.2) dest = true).
Proof.
  intros r. unfold r, write_to_xl, XL_WRITE_init.
  destruct (get_valid_file_name_returns name w) as (k & _ & Hopen & Hstop & _).
  rewrite (write_probe_run lib index index_label name dfs k w Hopen Hstop).
  exists (candidate name k). split; [done|].
  assert (forall p, p <> candidate name k ->
            fs (write_file lib (candidate name k) dfs index index_label
                  (after_calls w (probes name k))).2 !! p = fs w !! p) as Hother.
  { intros p Hp. by rewrite write_file_other_paths. }
  split; [exact Hother|]. split.
  - intros p Hp. apply Hother. intros ->. congruence.
  - rewrite write_file_run. apply write_file_result_opens.
Qed.

Lemma write_keeps_existing_workbooks_witness :
  let t := mkDF ["x"] [[Int 1]] in
  let w := world_of {["X.xlsx" := Workbook [("old", t)]]} in
  fs (write_to_xl demo_writer "X.xlsx" [("new", t)] false false EmptyString w).2
    !! "X.xlsx" = Some (Workbook [("old", t)]).
Proof.
  intros t w.
  destruct (write_keeps_existing_workbooks demo_writer "X.xlsx" [("new", t)]
              false EmptyString w) as (dest & _ & _ & Hkeep & _).
  apply Hkeep. vm_compute. reflexivity.
Defined.

Section SuccessiveWrites.

Variable lib : pandas_writer.
Variables (name : string) (dfs : odict) (index : bool) (index_label : string).

Lemma write_times_files sheets n :
  save lib (book_after lib index index_label (new_book lib) dfs) = Some sheets ->
  forall k w,
  (forall j, k <= j < k + n -> has_engine lib (candidate name j) = true) ->
  (forall j, j < k -> opens (fs w) (candidate name j) = true) ->
  (forall j, k <= j -> opens (fs w) (candidate name j) = false) ->
  let r := write_times lib n name dfs index index_label w in
  r.1 = Ret tt /\
  (forall j, k <= j < k + n -> fs r.2 !! candidate name j = Some (Workbook sheets)) /\
  (forall p, (forall j, k <= j < k + n -> p <> candidate name j) ->
     fs r.2 !! p = fs w !! p).
Proof.
  intros Hsave.
  induction n as [|n IH]; intros k w Hengine Hopen Hfree; cbn zeta.
  - simpl. split; [done|]. split; [intros j Hj; lia|done].
  - set (w1 := mkWorld (<[candidate name k := Workbook sheets]> (fs w))
                 (stdout w ++ all_diagnostics lib (candidate name k) index index_label
                                 (new_book lib) dfs)
                 ((calls w ++ probes name k) ++
                  (Call_to_excel <$> all_attempts lib index index_label (new_book lib) dfs))).
    assert (write_times lib (S n) name dfs index index_label w
            = write_times lib n name dfs index index_label w1) as ->.
    { cbn [write_times]. unfold bind, write_to_xl, XL_WRITE_init.
      rewrite (write_probe_run lib index index_label name dfs k w Hopen
                 (Hfree k (Nat.le_refl k))).
      rewrite write_file_run. unfold write_file_result.
      rewrite (Hengine k) by lia. by rewrite Hsave. }
    assert (fs w1 = <[candidate name k := Workbook sheets]> (fs w)) as Hfs1 by done.
    destruct (IH (S k) w1) as (Hret & Hrange & Hrest).
    + intros j Hj. apply Hengine. lia.
    + intros j Hj. rewrite Hfs1, opens_insert_workbook.
      destruct (decide (candidate name k = candidate name j)); [done|].
      apply Hopen. destruct (decide (j = k)) as [->|]; [done|lia].
    + intros j Hj. rewrite Hfs1, opens_insert_workbook.
      rewrite decide_False; [apply Hfree; lia|].
      intros Heq. apply candidate_inj in Heq. lia.
    + split; [done|]. split.
      * intros j Hj. destruct (decide (j = k)) as [->|Hne].
        -- rewrite Hrest; [by rewrite Hfs1, lookup_insert_eq|].
           intros j Hj' Heq. apply candidate_inj in Heq. lia.
        -- apply Hrange. lia.
      * intros p Hp. rewrite Hrest; [|intros j Hj; apply Hp; lia].
        rewrite Hfs1, lookup_insert_ne; [done|].
        intros Heq. apply (Hp k); [lia|done].
Qed.

End SuccessiveWrites.

(** X5: starting where the name's candidates [0 .. k-1] open and no
    later one does, and where pandas has an engine for the candidates
    [k .. k+n-1] and saves the workbook of the collection, [n] writes in
    a row without [overwrite] all return normally and fill those
    candidates, one each: afterwards exactly the candidates below [k+n]
    open, each new one holds the saved sheets, and no other path has
    changed. *)
Theorem successive_writes_take_successive_copies
    (lib : pandas_writer)
    (n : nat) (name : string) (dfs : odict) (index : bool) (index_label : string)
    (sheets : odict) (k : nat) (w : world) :
  save lib (book_after lib index index_label (new_book lib) dfs) = Some sheets ->
  (forall j, k <= j < k + n -> has_engine lib (candidate name j) = true) ->
  (forall j, j < k -> opens (fs w) (candidate name j) = true) ->
  (forall j, k <= j -> opens (fs w) (candidate name j) = false) ->
  let r := write_times lib n name dfs index index_label w in
  r.1 = Ret tt /\
  (forall j, opens (fs r.2) (candidate name j) = bool_decide (j < k + n)) /\
  (forall j, k <= j < k + n -> fs r.2 !! candidate name j = Some (Workbook sheets)) /\
  (forall p, (forall j, k <= j < k + n -> p <> candidate name j) ->
     fs r.2 !! p = fs w !! p).
Proof.
  intros Hsave Hengine Hopen Hfree r.
  destruct (write_times_files lib name dfs index index_label sheets n Hsave k w
              Hengine Hopen Hfree) as (Hret & Hrange & Hrest).
  split; [done|]. split; [|done].
  intros j. destruct (decide (j < k + n)) as [Hlt|Hge].
  - rewrite bool_decide_true by done.
    destruct (decide (k <= j)) as [Hkj|Hjk].
    + unfold opens. fold r in Hrange. by rewrite Hrange by lia.
    + unfold opens. fold r in Hrest. rewrite Hrest.
      * apply Hopen. lia.
      * intros j' Hj' Heq. apply candidate_inj in Heq. lia.
  - rewrite bool_decide_false by done.
    unfold opens. fold r in Hrest. rewrite Hrest.
    + apply Hfree. lia.
    + intros j' Hj' Heq. apply candidate_inj in Heq. lia.
Qed.

Lemma successive_writes_take_successive_copies_witness :
  let t := mkDF ["x"] [[Int 1]] in
  let r := write_times demo_writer 3 "X.xlsx" [("s", t)] false EmptyString (world_of ∅) in
  fs r.2 !! "X.xlsx" = Some (Workbook [("s", t)]) /\
  fs r.2 !! "X - Copy.xlsx" = Some (Workbook [("s", t)]) /\
  fs r.2 !! "X - Copy (2).xlsx" = Some (Workbook [("s", t)]) /\
  opens (fs r.2) "X - Copy (3).xlsx" = false.
Proof.
  intros t r.
  destruct (successive_writes_take_successive_copies demo_writer 3 "X.xlsx"
              [("s", t)] false EmptyString [("s", t)] 0 (world_of ∅))
    as (_ & Hopens & Hrange & _).
  - reflexivity.
  - intros j Hj.
    assert (j = 0 \/ j = 1 \/ j = 2) as [-> | [-> | ->]] by lia; reflexivity.
  - intros j Hj. lia.
  - intros j _. reflexivity.
  - split; [exact (Hrange 0 ltac:(lia))|].
    split; [exact (Hrange 1 ltac:(lia))|].
    split; [exact (Hrange 2 ltac:(lia))|].
    exact (Hopens 3).
Defined.

(* ================================================================== *)
(** * Further properties: the reader *)
(* ================================================================== *)

Section ReaderMore.

Lemma for_each_pure {A S} (f : S -> A -> S) (l : list A) : forall (s : S) (w : world),
  for_each l (fun s x => ret (f s x)) s w = (Ret (foldl f s l), w).
Proof.
  induction l as [|x l IH]; intros s w; [done|].
  cbn [for_each]. unfold bind, ret at 1. by rewrite IH.
Qed.

(** Assigning again what is already there changes nothing. *)
Lemma od_set_same k v d : od_get k d = Some v -> od_set k v d = d.
Proof.
  induction d as [|[k' v'] d IH]; simpl; [done|].
  destruct (decide (k = k')) as [->|Hne].
  - by intros [= ->].
  - intros H. by rewrite IH.
Qed.

Lemma load_again handle names : forall d,
  (forall k, k ∈ names -> od_get k d = Some (default empty_DataFrame (od_get k handle))) ->
  foldl (fun acc name => od_set name (default empty_DataFrame (od_get name handle)) acc)
        d names = d.
Proof.
  induction names as [|k names IH]; intros d Hd; simpl; [done|].
  rewrite od_set_same by (apply Hd; apply list_elem_of_here).
  apply IH. intros k' Hk'. apply Hd. by apply list_elem_of_further.
Qed.

Lemma XL_READ_getitem_run self key w :
  XL_READ_getitem self key w =
  match od_get key (df_dict self) with
  | Some df => (Ret df, w)
  | None => (Exc KeyError, w)
  end.
Proof. unfold XL_READ_getitem. by destruct (od_get key (df_dict self)). Qed.

End ReaderMore.

(** X6: when the path does not open as a workbook, [read_xl] and
    [get_merged_DataFrame_of_file] raise the error of the open instead of
    returning something empty, and leave the files as they are. *)
Theorem read_failure_propagates (path : string) (w : world) :
  opens (fs w) path = false ->
  (read_xl path w).1 = Exc OpenError /\
  (get_merged_DataFrame_of_file path w).1 = Exc OpenError /\
  fs (read_xl path w).2 = fs w /\
  fs (get_merged_DataFrame_of_file path w).2 = fs w.
Proof.
  intros H. unfold get_merged_DataFrame_of_file, bind.
  by rewrite (read_xl_fails path w H).
Qed.

Lemma read_failure_propagates_witness :
  (get_merged_DataFrame_of_file "junk.xlsx"
     (world_of {["junk.xlsx" := Malformed]})).1 = Exc OpenError.
Proof.
  apply (read_failure_propagates "junk.xlsx" (world_of {["junk.xlsx" := Malformed]})).
  reflexivity.
Defined.

(** X7: [read_xl] on a workbook with distinct sheet names loads every
    sheet, in on-disk order: iteration yields the workbook's sheets, the
    length is their number, a sheet is found under its name and any other
    name raises [KeyError]; nothing is written or printed. *)
Theorem read_xl_loads_every_sheet (path : string) (sheets : odict) (w : world) :
  fs w !! path = Some (Workbook sheets) ->
  NoDup (od_keys sheets) ->
  exists xlrd w',
    read_xl path w = (Ret xlrd, w') /\
    XL_READ_iter xlrd = sheets /\
    XL_READ_len xlrd = length sheets /\
    (forall key, XL_READ_getitem xlrd key w' =
                 match od_get key sheets with
                 | Some df => (Ret df, w')
                 | None => (Exc KeyError, w')
                 end) /\
    fs w' = fs w /\
    stdout w' = stdout w.
Proof.
  intros Hfile Hnd. eexists _, _. split; [by apply read_xl_run|].
  unfold XL_READ_iter, XL_READ_len. simpl. rewrite loaded_unique by done.
  split; [done|]. split; [done|]. split; [|done].
  intros key. by rewrite XL_READ_getitem_run.
Qed.

Lemma read_xl_loads_every_sheet_witness :
  let t1 := mkDF ["x"] [[Int 1]] in
  let t2 := mkDF ["y"] [[Int 2]] in
  let w := world_of {["db.xlsx" := Workbook [("B", t1); ("A", t2)]]} in
  exists xlrd w',
    read_xl "db.xlsx" w = (Ret xlrd, w') /\
    XL_READ_iter xlrd = [("B", t1); ("A", t2)].
Proof.
  intros t1 t2 w.
  assert (NoDup (od_keys [("B", t1); ("A", t2)])) as Hnd.
  { simpl. apply NoDup_cons. split; [|apply NoDup_singleton].
    intros H. apply list_elem_of_singleton in H. discriminate H. }
  destruct (read_xl_loads_every_sheet "db.xlsx" [("B", t1); ("A", t2)] w eq_refl Hnd)
    as (xlrd & w' & Hrun & Hiter & _).
  exists xlrd, w'. split; [exact Hrun|exact Hiter].
Defined.

(** X8: looking a name up raises [KeyError] exactly when the name is not
    in the collection; after an assignment the name yields the assigned
    table, and the length has grown by one when the name was new and not
    at all when it was there. *)
Theorem getitem_after_setitem (self : XL_READ) (key : string) (value : DataFrame) (w : world) :
  XL_READ_getitem (XL_READ_setitem self key value) key w = (Ret value, w) /\
  XL_READ_len (XL_READ_setitem self key value) =
    (if decide (key ∈ od_keys (df_dict self))
     then XL_READ_len self else S (XL_READ_len self)) /\
  ((XL_READ_getitem self key w).1 = Exc KeyError <-> key ∉ od_keys (df_dict self)).
Proof.
  split; [|split].
  - rewrite XL_READ_getitem_run. simpl. by rewrite od_get_set_eq.
  - unfold XL_READ_len. simpl.
    rewrite <- !(length_fmap fst). change (fst <$> ?d) with (od_keys d).
    rewrite od_keys_set. unfold key_added.
    destruct (decide (key ∈ od_keys (df_dict self))); [done|].
    rewrite length_app. simpl. lia.
  - rewrite XL_READ_getitem_run. rewrite <- od_get_None.
    destruct (od_get key (df_dict self)); simpl; split; intros H; done.
Qed.

Lemma getitem_after_setitem_witness :
  let t := mkDF ["x"] [[Int 1]] in
  let self := mkXL_READ [("A", t)] None [] [] in
  (XL_READ_getitem self "B" (world_of ∅)).1 = Exc KeyError.
Proof.
  intros t self.
  apply (getitem_after_setitem self "B" t (world_of ∅)).
  intros H. apply list_elem_of_singleton in H. discriminate H.
Defined.

(** X9: loading the sheets a second time changes nothing: on a reader
    built for all sheets, [read_sheets] after [read_sheets] returns the
    collection the first call returned. *)
Theorem read_sheets_twice (self : XL_READ) (w : world) :
  truthy (sheet_name self) = false ->
  sheet_names self = od_keys (xl self) ->
  exists self1,
    read_sheets self w = (Ret self1, w) /\
    read_sheets self1 w = (Ret self1, w).
Proof.
  intros Hf Hnames. eexists. split; [by apply read_sheets_all|].
  rewrite read_sheets_all by done. cbn [df_dict sheet_name xl sheet_names].
  do 2 f_equal. unfold loaded at 1. rewrite load_again; [done|].
  intros k Hk. unfold loaded. rewrite loaded_fold_get by done.
  by destruct (od_get_keys _ _ Hk) as [v ->].
Qed.

Lemma read_sheets_twice_witness :
  let t1 := mkDF ["x"] [[Int 1]] in
  let self := mkXL_READ [] None [("A", t1); ("B", t1)] ["A"; "B"] in
  exists self1,
    read_sheets self (world_of ∅) = (Ret self1, world_of ∅) /\
    read_sheets self1 (world_of ∅) = (Ret self1, world_of ∅).
Proof.
  intros t1 self. apply (read_sheets_twice self (world_of ∅)); reflexivity.
Defined.

(* ================================================================== *)
(** * Further properties: appending *)
(* ================================================================== *)

Section AppendMore.

(** Starting from nothing, the merged collection is the new one. *)
Lemma od_update_nil e : NoDup (od_keys e) -> od_update [] e = e.
Proof. intros H. apply (od_update_fresh e []). by rewrite app_nil_l. Qed.

Lemma existing_sheets_closed (files : gmap string file) path :
  opens files path = false -> existing_sheets files path = [].
Proof.
  intros H. unfold existing_sheets. apply opens_false in H as [-> | ->]; done.
Qed.

End AppendMore.

(** X10: on a path that does not open as a workbook and for which
    pandas has an engine, [append_to_xl] ends as [write_to_xl] with the
    same tables and the same [overwrite] ends, and leaves the same files:
    there is nothing to merge with. *)
Theorem append_to_unopenable_is_write
    (lib : pandas_writer)
    (path : string) (dfs : odict) (overwrite : bool) (index_label : string) (w : world) :
  opens (fs w) path = false ->
  NoDup (od_keys dfs) ->
  has_engine lib path = true ->
  (append_to_xl lib path dfs overwrite index_label w).1 =
    (write_to_xl lib path dfs false overwrite index_label w).1 /\
  fs (append_to_xl lib path dfs overwrite index_label w).2 =
    fs (write_to_xl lib path dfs false overwrite index_label w).2.
Proof.
  intros Hclosed Hnd Hengine. rewrite append_run.
  assert (od_update (loaded (existing_sheets (fs w) path) []) dfs = dfs) as ->.
  { rewrite existing_sheets_closed by done. unfold loaded. simpl.
    by apply od_update_nil. }
  unfold write_to_xl, XL_WRITE_init. destruct overwrite.
  - rewrite !write_overwrite_run, !write_file_run. unfold write_file_result.
    rewrite Hengine.
    destruct (save lib _); cbn [fst snd fs]; by rewrite insert_delete_eq.
  - assert (forall j, j < 0 -> opens (fs w) (candidate path j) = true) as Hopen
      by (intros j Hj; lia).
    rewrite (write_probe_run lib false index_label path dfs 0
               (mkWorld (fs w) (stdout w) (calls w ++ [Call_ExcelFile path]))
               Hopen Hclosed).
    rewrite (write_probe_run lib false index_label path dfs 0 w Hopen Hclosed).
    rewrite !write_file_run. unfold write_file_result. cbn [candidate].
    rewrite Hengine. by destruct (save lib _).
Qed.

Lemma append_to_unopenable_is_write_witness :
  let t := mkDF ["x"] [[Int 1]] in
  let w := world_of {["junk.xlsx" := Malformed]} in
  fs (append_to_xl demo_writer "junk.xlsx" [("A", t)] true EmptyString w).2 =
  fs (write_to_xl demo_writer "junk.xlsx" [("A", t)] false true EmptyString w).2.
Proof.
  intros t w.
  apply (append_to_unopenable_is_write demo_writer "junk.xlsx" [("A", t)] true
           EmptyString w).
  - reflexivity.
  - apply NoDup_singleton.
  - reflexivity.
Defined.

(** X11: without [overwrite], appending to a path that holds a workbook
    leaves that workbook as it is, whether the append returns or raises:
    the merged collection is handed to the writer for one of the path's
    copies, which did not open before, and no other path changes. *)
Theorem append_without_overwrite_keeps_original
    (lib : pandas_writer)
    (path : string) (sheets dfs : odict) (index_label : string) (w : world) :
  fs w !! path = Some (Workbook sheets) ->
  let r := append_to_xl lib path dfs false index_label w in
  fs r.2 !! path = Some (Workbook sheets) /\
  exists n,
    1 <= n /\
    opens (fs w) (copy_of_file path n) = false /\
    (forall p, p <> copy_of_file path n -> fs r.2 !! p = fs w !! p) /\
    r = write_file lib (copy_of_file path n)
          (od_update (loaded sheets []) dfs) false index_label
          (after_calls w (Call_ExcelFile path :: probes path n)).
Proof.
  intros Hfile r. unfold r. rewrite append_run.
  assert (existing_sheets (fs w) path = sheets) as ->
    by (unfold existing_sheets; by rewrite Hfile).
  set (w1 := mkWorld (fs w) (stdout w) (calls w ++ [Call_ExcelFile path])).
  destruct (get_valid_file_name_returns path w1) as (k & _ & Hopen & Hstop & _).
  unfold write_to_xl, XL_WRITE_init.
  rewrite (write_probe_run lib false index_label path _ k w1 Hopen Hstop).
  destruct k as [|k].
  { simpl in Hstop. unfold opens in Hstop. by rewrite Hfile in Hstop. }
  cbn [candidate] in *.
  assert (forall p, p <> copy_of_file path (S k) ->
            fs (write_file lib (copy_of_file path (S k))
                  (od_update (loaded sheets []) dfs) false index_label
                  (after_calls w1 (probes path (S k)))).2 !! p = fs w !! p) as Hother.
  { intros p Hp. by rewrite write_file_other_paths. }
  split.
  - rewrite Hother; [done|].
    intros Heq. apply (candidate_inj path 0 (S k)) in Heq. lia.
  - exists (S k). split; [lia|]. split; [exact Hstop|]. split; [exact Hother|].
    unfold w1, after_calls. cbn [fs stdout calls]. by rewrite <- app_assoc.
Qed.

Lemma append_without_overwrite_keeps_original_witness :
  let t1 := mkDF ["x"] [[Int 1]] in
  let t2 := mkDF ["x"] [[Int 2]] in
  let w := world_of {["db.xlsx" := Workbook [("A", t1)]]} in
  fs (append_to_xl demo_writer "db.xlsx" [("A", t2)] false EmptyString w).2 !! "db.xlsx"
  = Some (Workbook [("A", t1)]).
Proof.
  intros t1 t2 w.
  apply (append_without_overwrite_keeps_original demo_writer "db.xlsx"
           [("A", t1)] [("A", t2)] EmptyString w eq_refl).
Defined.

(* ================================================================== *)
(** * Further properties: merging *)
(* ================================================================== *)

Section MergeMore.

Lemma concat_rows_length a b :
  length (rows (concat a b)) = length (rows a) + length (rows b).
Proof. unfold concat. simpl. by rewrite length_app, !length_map. Qed.

Lemma concat_columns_elem a b c :
  c ∈ columns (concat a b) <-> c ∈ columns a \/ c ∈ columns b.
Proof.
  unfold concat. simpl. rewrite elem_of_app, list_elem_of_difference.
  destruct (decide (c ∈ columns a)); tauto.
Qed.

Lemma reindex_length new_cols old_cols row :
  length (reindex new_cols old_cols row) = length new_cols.
Proof. unfold reindex. by rewrite length_map. Qed.

Lemma concat_aligned a b :
  Forall (fun row => length row = length (columns (concat a b))) (rows (concat a b)).
Proof.
  unfold concat. cbn [rows columns]. apply Forall_app. split.
  - apply Forall_forall. intros row Hrow.
    change (map ?f ?l) with (f <$> l) in Hrow.
    apply list_elem_of_fmap in Hrow as (r & -> & _). apply reindex_length.
  - apply Forall_forall. intros row Hrow.
    change (map ?f ?l) with (f <$> l) in Hrow.
    apply list_elem_of_fmap in Hrow as (r & -> & _). apply reindex_length.
Qed.

(** Laying a row out for the columns it already has changes nothing. *)
Lemma reindex_same cols row :
  NoDup cols -> length row = length cols -> reindex cols cols row = row.
Proof.
  intros Hnd Hlen. apply list_eq. intros j.
  destruct (cols !! j) as [c|] eqn:Hc.
  - rewrite (reindex_lookup cols cols row j c Hc).
    destruct (col_index_elem c cols) as [i Hi]; [by eapply list_elem_of_lookup_2|].
    rewrite Hi. apply col_index_Some in Hi.
    assert (i = j) as -> by (by eapply NoDup_lookup).
    destruct (lookup_lt_is_Some_2 row j) as [x Hx].
    { rewrite Hlen. by eapply lookup_lt_Some. }
    by rewrite Hx.
  - apply lookup_ge_None in Hc.
    rewrite !(proj2 (lookup_ge_None _ _)); [done|lia|].
    rewrite reindex_length. lia.
Qed.

Lemma merge_fold_rows sheets : forall acc,
  length (rows (foldl merge_step acc sheets)) =
  length (rows acc) + sum_list ((fun kv => length (rows kv.2)) <$> sheets).
Proof.
  induction sheets as [|kv sheets IH]; intros acc; simpl; [lia|].
  rewrite IH. unfold merge_step. rewrite concat_rows_length.
  cbn [fillna rows]. rewrite length_map.
  change (list_fmap _ _ ?f ?l) with (f <$> l). lia.
Qed.

Lemma merge_fold_columns sheets c : forall acc,
  c ∈ columns (foldl merge_step acc sheets) <->
  c ∈ columns acc \/ exists kv, kv ∈ sheets /\ c ∈ columns kv.2.
Proof.
  induction sheets as [|kv sheets IH]; intros acc; simpl.
  - split; [by left|]. intros [H|(kv & Hkv & _)]; [done|]. by apply elem_of_nil in Hkv.
  - rewrite IH. unfold merge_step. rewrite concat_columns_elem. simpl. split.
    + intros [[H|H]|(kv' & Hkv' & Hc)].
      * right. exists kv. split; [apply list_elem_of_here|done].
      * by left.
      * right. exists kv'. split; [by apply list_elem_of_further|done].
    + intros [H|(kv' & Hkv' & Hc)]; [left; by right|].
      apply elem_of_cons in Hkv' as [->|Hin].
      * left. by left.
      * right. by exists kv'.
Qed.

Lemma merge_fold_aligned sheets : forall acc,
  Forall (fun row => length row = length (columns acc)) (rows acc) ->
  Forall (fun row => length row = length (columns (foldl merge_step acc sheets)))
         (rows (foldl merge_step acc sheets)).
Proof.
  induction sheets as [|kv sheets IH]; intros acc Hacc; simpl; [done|].
  apply IH. apply concat_aligned.
Qed.

(** The merge of a workbook with distinct sheet names is the fold of
    its loop body over the sheets. *)
Lemma get_merged_run path sheets w :
  fs w !! path = Some (Workbook sheets) ->
  NoDup (od_keys sheets) ->
  get_merged_DataFrame_of_file path w =
  (Ret (foldl merge_step empty_DataFrame sheets), after_calls w [Call_ExcelFile path]).
Proof.
  intros Hfile Hnd. unfold get_merged_DataFrame_of_file, bind.
  rewrite (read_xl_run path sheets w Hfile).
  unfold XL_READ_iter. cbn [df_dict]. rewrite loaded_unique by done.
  exact (for_each_pure merge_step sheets empty_DataFrame _).
Qed.

End MergeMore.

(** X13: the merge of a workbook with distinct sheet names drops no row
    and no column: it has as many rows as all sheets together, its
    columns are exactly the labels that occur in some sheet, every row is
    as long as there are columns, and no file is changed.  A workbook
    without sheets merges to the empty table. *)
Theorem merge_keeps_rows_and_columns (path : string) (sheets : odict) (w : world) :
  fs w !! path = Some (Workbook sheets) ->
  NoDup (od_keys sheets) ->
  exists merged w',
    get_merged_DataFrame_of_file path w = (Ret merged, w') /\
    length (rows merged) = sum_list ((fun kv => length (rows kv.2)) <$> sheets) /\
    (forall c, c ∈ columns merged <-> exists kv, kv ∈ sheets /\ c ∈ columns kv.2) /\
    Forall (fun row => length row = length (columns merged)) (rows merged) /\
    (sheets = [] -> merged = empty_DataFrame) /\
    fs w' = fs w.
Proof.
  intros Hfile Hnd. eexists _, _. split; [by apply get_merged_run|].
  split; [by rewrite merge_fold_rows|]. split; [|split; [|split; [|done]]].
  - intros c. rewrite merge_fold_columns. split.
    + intros [H|H]; [by apply elem_of_nil in H|done].
    + intros H. by right.
  - apply merge_fold_aligned. constructor.
  - by intros ->.
Qed.

Lemma merge_keeps_rows_and_columns_witness :
  let A := mkDF ["x"] [[Int 1]; [NaN]] in
  let B := mkDF ["y"] [[Int 2]] in
  let w := world_of {["book.xlsx" := Workbook [("A", A); ("B", B)]]} in
  exists merged w',
    get_merged_DataFrame_of_file "book.xlsx" w = (Ret merged, w') /\
    length (rows merged) = 3.
Proof.
  intros A B w.
  assert (NoDup (od_keys [("A", A); ("B", B)])) as Hnd.
  { simpl. apply NoDup_cons. split; [|apply NoDup_singleton].
    intros H. apply list_elem_of_singleton in H. discriminate H. }
  destruct (merge_keeps_rows_and_columns "book.xlsx" [("A", A); ("B", B)] w eq_refl Hnd)
    as (merged & w' & Hrun & Hrows & _).
  exists merged, w'. split; [exact Hrun|exact Hrows].
Defined.

(** X14: a workbook with a single well-formed sheet merges to that
    sheet with every missing value replaced by the empty string, and
    nothing else changed. *)
Theorem merge_of_single_sheet (path name : string) (df : DataFrame) (w : world) :
  fs w !! path = Some (Workbook [(name, df)]) ->
  well_formed df ->
  (get_merged_DataFrame_of_file path w).1 = Ret (fillna EmptyString df) /\
  Forall (fun row => NaN ∉ row) (rows (fillna EmptyString df)).
Proof.
  intros Hfile [Hnd Hrows]. split.
  - rewrite (get_merged_run path [(name, df)] w Hfile) by apply NoDup_singleton.
    cbn [fst foldl]. unfold merge_step, concat. cbn [snd columns rows fillna empty_DataFrame].
    f_equal. unfold fillna. f_equal.
    + cbn [list_difference]. apply app_nil_r.
    + cbn [list_difference map]. rewrite !app_nil_r.
      change (map ?f ?l) with (f <$> l). rewrite <- list_fmap_compose.
      apply list_fmap_ext. intros i row Hrow. simpl.
      apply reindex_same; [done|]. rewrite length_map.
      eapply Forall_lookup_1 in Hrows; [|exact Hrow]. done.
  - unfold fillna. cbn [rows]. apply Forall_forall. intros row Hrow Hin.
    change (map ?f ?l) with (f <$> l) in Hrow.
    apply list_elem_of_fmap in Hrow as (r & -> & _).
    change (map ?f ?l) with (f <$> l) in Hin.
    apply list_elem_of_fmap in Hin as (c & Hc & _). by destruct c.
Qed.

Lemma merge_of_single_sheet_witness :
  let df := mkDF ["host"; "port"] [[Str "r1"; NaN]; [NaN; Int 22]] in
  (get_merged_DataFrame_of_file "one.xlsx"
     (world_of {["one.xlsx" := Workbook [("devices", df)]]})).1
  = Ret (mkDF ["host"; "port"] [[Str "r1"; Str EmptyString]; [Str EmptyString; Int 22]]).
Proof.
  intros df.
  refine (proj1 (merge_of_single_sheet "one.xlsx" "devices" df
                   (world_of {["one.xlsx" := Workbook [("devices", df)]]}) eq_refl _)).
  split.
  - simpl. apply NoDup_cons. split; [|apply NoDup_singleton].
    intros H. apply list_elem_of_singleton in H. discriminate H.
  - repeat constructor.
Defined.

(* ================================================================== *)
(** * Further properties: the truncated retry *)
(* ================================================================== *)

Section Truncation.

Variable lib : pandas_writer.
Variables (index : bool) (index_label : string).

Lemma attempts_names b item a :
  a ∈ attempts lib index index_label b item ->
  a = item.1 \/ a = PyStr.prefix 31 item.1.
Proof.
  unfold attempts. destruct sheet_outcome; intros H.
  - apply list_elem_of_singleton in H. by left.
  - apply elem_of_cons in H as [->|H]; [by left|].
    apply list_elem_of_singleton in H. by right.
  - apply elem_of_cons in H as [->|H]; [by left|].
    apply list_elem_of_singleton in H. by right.
Qed.

Lemma all_attempts_names dfs a : forall b,
  a ∈ all_attempts lib index index_label b dfs ->
  exists item, item ∈ dfs /\ (a = item.1 \/ a = PyStr.prefix 31 item.1).
Proof.
  induction dfs as [|item dfs IH]; intros b H; simpl in H.
  - by apply elem_of_nil in H.
  - apply elem_of_app in H as [H|H].
    + exists item. split; [apply list_elem_of_here|]. by eapply attempts_names.
    + destruct (IH _ H) as (item' & Hin & Ha).
      exists item'. split; [by apply list_elem_of_further|done].
Qed.

(** The calls of the [with] block. *)
Lemma write_file_result_calls fileName dfs w c :
  c ∈ calls (write_file_result lib fileName index index_label dfs w).2 ->
  c ∈ calls w \/
  c ∈ (Call_to_excel <$> all_attempts lib index index_label (new_book lib) dfs).
Proof.
  unfold write_file_result. destruct (has_engine lib fileName); [|by left].
  destruct (save lib _); cbn [snd calls]; intros H;
    apply elem_of_app in H as [H|H]; auto.
Qed.

End Truncation.

(** X15: [write] hands to [to_excel] no name but the sheet names of the
    collection and their first 31 characters: every such call made
    during a write is for a name of the collection or for a beginning of
    one that is at most 31 characters long. *)
Theorem write_tries_only_names_and_prefixes
    (lib : pandas_writer)
    (name : string) (dfs : odict) (index : bool) (index_label : string)
    (overwrite : bool) (w : world) (a : string) :
  Call_to_excel a ∈ calls (write lib name dfs index index_label overwrite w).2 ->
  Call_to_excel a ∈ calls w \/
  exists item rest,
    item ∈ dfs /\ item.1 = a +:+ rest /\
    (a = item.1 \/ String.length a <= 31).
Proof.
  assert (forall b, a ∈ all_attempts lib index index_label b dfs ->
            exists item rest, item ∈ dfs /\ item.1 = a +:+ rest /\
              (a = item.1 \/ String.length a <= 31)) as Hnames.
  { intros b Ha.
    destruct (all_attempts_names lib index index_label dfs a b Ha)
      as (item & Hin & [-> | ->]).
    - exists item, EmptyString. split; [done|]. split; [by rewrite app_nil_r_s|by left].
    - destruct (prefix_app 31 item.1) as [rest Hrest].
      exists item, rest. split; [done|]. split; [done|]. right.
      rewrite prefix_length. lia. }
  assert (forall l : list string, Call_to_excel a ∈ (Call_to_excel <$> l) -> a ∈ l) as Hcall.
  { intros l H. apply list_elem_of_fmap in H as (a' & [= ->] & H). done. }
  destruct (write_run lib index index_label name dfs overwrite w) as (k & _ & _ & ->).
  destruct overwrite.
  - intros H. apply write_file_result_calls in H as [H|H]; [by left|].
    right. eapply Hnames, Hcall, H.
  - intros H. apply write_file_result_calls in H as [H|H];
      [|right; eapply Hnames, Hcall, H].
    unfold after_calls in H. cbn [calls] in H.
    apply elem_of_app in H as [H|H]; [by left|].
    unfold probes in H. apply list_elem_of_fmap in H as (j & Hj & _). discriminate Hj.
Qed.

Lemma write_tries_only_names_and_prefixes_witness :
  Call_to_excel "bad/name" ∈ calls (world_of ∅) \/
  exists item rest,
    item ∈ [("bad/name", mkDF ["x"] [[Int 1]])] /\ item.1 = "bad/name" +:+ rest /\
    ("bad/name" = item.1 \/ String.length "bad/name" <= 31).
Proof.
  apply (write_tries_only_names_and_prefixes demo_writer "out.xlsx"
           [("bad/name", mkDF ["x"] [[Int 1]])] false EmptyString true (world_of ∅)).
  vm_compute. apply list_elem_of_here.
Defined.

(** X16: for a sheet name of at most 31 characters that [to_excel]
    refuses, the retry is the same call again: under the identical name,
    on the workbook as the refused call left it; the line of the first
    failure is printed, then the line that tells how the retry ended, and
    the loop goes on with the workbook the retry leaves. *)
Theorem short_name_is_retried_unchanged
    (lib : pandas_writer)
    (fileName : string) (index : bool) (index_label : string)
    (b : book lib) (sht_name : string) (df : DataFrame) (w : world) :
  String.length sht_name <= 31 ->
  (to_excel lib b sht_name df index index_label).1 = false ->
  let b1 := (to_excel lib b sht_name df index index_label).2 in
  let retry := to_excel lib b1 sht_name df index index_label in
  write_sheet lib fileName index index_label b (sht_name, df) w =
  (Ret retry.2,
   mkWorld (fs w)
     (stdout w ++ [msg_failed fileName sht_name;
                   if retry.1 then msg_trunked_done fileName sht_name
                   else msg_trunked_failed fileName sht_name])
     (calls w ++ [Call_to_excel sht_name; Call_to_excel sht_name])).
Proof.
  intros Hlen Hfail b1 retry. rewrite write_sheet_run.
  unfold add_sheet, diagnostics, attempts, sheet_outcome. cbn [fst snd].
  rewrite (prefix_short 31 sht_name Hlen).
  unfold retry, b1.
  destruct (to_excel lib b sht_name df index index_label) as [[|] b'] eqn:E1; [done|].
  cbn [snd].
  by destruct (to_excel lib b' sht_name df index index_label) as [[|] b2].
Qed.

Lemma short_name_is_retried_unchanged_witness :
  calls (write_sheet demo_writer "out.xlsx" false EmptyString []
           ("a:b", mkDF ["x"] [[Int 1]]) (world_of ∅)).2
  = [Call_to_excel "a:b"; Call_to_excel "a:b"].
Proof.
  rewrite (short_name_is_retried_unchanged demo_writer "out.xlsx" false EmptyString []
             "a:b" (mkDF ["x"] [[Int 1]]) (world_of ∅)).
  - reflexivity.
  - simpl. lia.
  - reflexivity.
Defined.

(* ================================================================== *)
(** * Further properties: what a refused sheet costs *)
(* ================================================================== *)

Section Refused.

Variable lib : pandas_writer.
Variables (fileName : string) (index : bool) (index_label : string).

Lemma refused_counts dfs : forall b,
  length (all_diagnostics lib fileName index index_label b dfs)
    = 2 * refused lib index index_label b dfs /\
  length (all_attempts lib index index_label b dfs)
    = length dfs + refused lib index index_label b dfs.
Proof.
  induction dfs as [|item dfs IH]; intros b; [done|].
  cbn [all_diagnostics all_attempts refused]. rewrite !length_app.
  destruct (IH (add_sheet lib index index_label b item)) as [-> ->].
  unfold diagnostics, attempts, sheet_outcome.
  destruct (to_excel lib b item.1 item.2 index index_label) as [[|] b1]; cbn [fst].
  - simpl. lia.
  - destruct (to_excel lib b1 (PyStr.prefix 31 item.1) item.2 index index_label)
      as [[|] b2]; simpl; lia.
Qed.

Lemma refused_none dfs : forall b,
  refused lib index index_label b dfs = 0 ->
  all_diagnostics lib fileName index index_label b dfs = [] /\
  all_attempts lib index index_label b dfs = od_keys dfs.
Proof.
  induction dfs as [|item dfs IH]; intros b H; [done|].
  cbn [all_diagnostics all_attempts refused] in *.
  unfold diagnostics, attempts, sheet_outcome.
  destruct (to_excel lib b item.1 item.2 index index_label) as [[|] b1] eqn:E;
    cbn [fst] in H; [|lia].
  destruct (IH (add_sheet lib index index_label b item)) as [-> ->]; [lia|]. done.
Qed.

End Refused.

(** X18: where pandas has an engine for the path, a write with
    [overwrite] prints exactly two lines for each sheet that [to_excel]
    refuses under its full name and none for the others, and calls
    [to_excel] once for every sheet and once more for each refused one.
    When no sheet is refused it prints nothing and hands the sheets to
    [to_excel] one by one, in the order of the collection, each under its
    own name. *)
Theorem refused_sheets_cost_two_lines
    (lib : pandas_writer)
    (name : string) (dfs : odict) (index : bool) (index_label : string) (w : world) :
  has_engine lib name = true ->
  let r := write lib name dfs index index_label true w in
  let n := refused lib index index_label (new_book lib) dfs in
  length (stdout r.2) = length (stdout w) + 2 * n /\
  length (calls r.2) = length (calls w) + length dfs + n /\
  (n = 0 ->
   stdout r.2 = stdout w /\
   calls r.2 = calls w ++ (Call_to_excel <$> od_keys dfs)).
Proof.
  intros Hengine r n. unfold r.
  rewrite write_overwrite_run, write_file_run. unfold write_file_result. rewrite Hengine.
  destruct (refused_counts lib name index index_label dfs (new_book lib)) as [Hd Ha].
  destruct (save lib _); cbn [snd stdout calls];
    rewrite !length_app, length_fmap, Hd, Ha; fold n.
  - split; [done|]. split; [lia|]. intros Hn.
    destruct (refused_none lib name index index_label dfs (new_book lib) Hn) as [-> ->].
    by rewrite app_nil_r.
  - split; [done|]. split; [lia|]. intros Hn.
    destruct (refused_none lib name index index_label dfs (new_book lib) Hn) as [-> ->].
    by rewrite app_nil_r.
Qed.

Lemma refused_sheets_cost_two_lines_witness :
  let t := mkDF ["x"] [[Int 1]] in
  let r := write demo_writer "out.xlsx" [("A", t); ("bad/name", t)] false EmptyString true
             (world_of ∅) in
  length (stdout r.2) = length (stdout (world_of ∅)) + 2 * 1.
Proof.
  intros t r.
  destruct (refused_sheets_cost_two_lines demo_writer "out.xlsx"
              [("A", t); ("bad/name", t)] false EmptyString (world_of ∅) eq_refl)
    as (H & _). exact H.
Defined.

(* ================================================================== *)
(** * Further properties: the order of merged rows *)
(* ================================================================== *)

Section MergeOrder.

Lemma col_index_app_l c l1 l2 j :
  col_index c l1 = Some j -> col_index c (l1 ++ l2) = Some j.
Proof.
  unfold col_index. destruct (list_find (eq c) l1) as [[j' x]|] eqn:E; [|done].
  simpl. intros [= <-]. by rewrite (list_find_app_l _ l1 l2 j' x E).
Qed.

End MergeOrder.

(** X20: the rows of the last sheet of the workbook are the first rows
    of the merged table: under each column of that sheet, row [i] of the
    merged table holds the cell of the sheet's row [i], with the empty
    string where the cell was missing. *)
Theorem merge_puts_last_sheet_first
    (path : string) (sheets : odict) (name : string) (df : DataFrame)
    (i : nat) (c : string) (w : world) :
  fs w !! path = Some (Workbook (sheets ++ [(name, df)])) ->
  NoDup (od_keys (sheets ++ [(name, df)])) ->
  Forall (fun row => length row = length (columns df)) (rows df) ->
  i < length (rows df) ->
  c ∈ columns df ->
  exists merged w' x,
    get_merged_DataFrame_of_file path w = (Ret merged, w') /\
    cell_at merged i c = Some x /\
    cell_at (fillna EmptyString df) i c = Some x /\
    x <> NaN.
Proof.
  intros Hfile Hnd Hrows Hi Hc.
  destruct (lookup_lt_is_Some_2 (rows df) i Hi) as [row Hrow].
  destruct (col_index_elem c (columns df) Hc) as [j Hj].
  pose proof (col_index_Some _ _ _ Hj) as Hcj.
  assert (length row = length (columns df)) as Hlen
    by (eapply Forall_lookup_1 in Hrows; [|exact Hrow]; done).
  destruct (lookup_lt_is_Some_2 row j) as [y Hy].
  { rewrite Hlen. by eapply lookup_lt_Some. }
  set (fill := fun c : cell => match c with NaN => Str EmptyString | _ => c end).
  assert (rows (fillna EmptyString df) !! i = Some (fill <$> row)) as Hfrow.
  { unfold fillna. cbn [rows]. change (map ?f ?l) with (f <$> l) at 1.
    by rewrite list_lookup_fmap, Hrow. }
  eexists _, _, (fill y). split; [by apply get_merged_run|].
  rewrite foldl_snoc. unfold merge_step at 1. cbn [snd].
  set (acc := foldl merge_step empty_DataFrame sheets).
  split; [|split].
  - unfold cell_at, concat. cbn [rows columns].
    rewrite lookup_app_l by (rewrite length_map; cbn [fillna rows]; by rewrite length_map).
    change (map ?f (rows (fillna EmptyString df))) with (f <$> rows (fillna EmptyString df)).
    rewrite list_lookup_fmap, Hfrow. cbn [fmap option_fmap option_map].
    cbn [fillna columns]. rewrite (col_index_app_l c _ _ j Hj).
    rewrite (reindex_lookup _ _ _ j c) by (by apply lookup_app_l_Some).
    by rewrite Hj, list_lookup_fmap, Hy.
  - unfold cell_at. rewrite Hfrow. cbn [fillna columns]. rewrite Hj.
    by rewrite list_lookup_fmap, Hy.
  - by destruct y.
Qed.

Lemma merge_puts_last_sheet_first_witness :
  let A := mkDF ["x"] [[Int 1]] in
  let B := mkDF ["x"; "y"] [[NaN; Int 2]] in
  let w := world_of {["book.xlsx" := Workbook [("A", A); ("B", B)]]} in
  exists merged w' x,
    get_merged_DataFrame_of_file "book.xlsx" w = (Ret merged, w') /\
    cell_at merged 0 "x" = Some x /\
    cell_at (fillna EmptyString B) 0 "x" = Some x /\
    x <> NaN.
Proof.
  intros A B w.
  apply (merge_puts_last_sheet_first "book.xlsx" [("A", A)] "B" B 0 "x" w).
  - reflexivity.
  - simpl. apply NoDup_cons. split; [|apply NoDup_singleton].
    intros H. apply list_elem_of_singleton in H. discriminate H.
  - repeat constructor.
  - simpl. lia.
  - apply list_elem_of_here.
Defined.
